(** * Vidu video generator: the job tracker and the img2video proxy

    A shallow embedding of
    - the Express proxy's [POST /api/img2video] handler (request validation,
      duration and resolution defaulting, the body forwarded to the remote
      API), and
    - the [VideoGenerator] React component (its [useState] cells, the three
      submission handlers, [pollTaskCreations] with its [setInterval] and
      [setTimeout] callbacks, and the status projections),
    followed by the properties of the job-tracking state machine. *)

From stdpp Require Import base strings list gmap pretty.
From Stdlib Require Import ZArith NArith Ascii Lia.

Open Scope string_scope.
Open Scope Z_scope.

(** ** JavaScript values *)

Module Js.

(** A JSON-shaped JavaScript value; [JUndefined] is a missing property.
    Numbers are the integral ones (durations are whole seconds). *)
#[local] Unset Elimination Schemes.
Inductive jsval : Type :=
| JUndefined
| JNull
| JBool (b : bool)
| JNum (n : Z)
| JStr (s : string)
| JArr (l : list jsval)
| JObj (l : list (string * jsval)).
#[local] Set Elimination Schemes.

(** [!!v] of JavaScript: everything but [undefined], [null], [false], [0]
    and the empty string is truthy. *)
Definition truthy (v : jsval) : bool :=
  match v with
  | JUndefined | JNull => false
  | JBool b => b
  | JNum n => negb (n =? 0)
  | JStr s => negb (String.eqb s "")
  | JArr _ | JObj _ => true
  end.

(** A destructuring default [x = d]: used only for [undefined]. *)
Definition default_to (d v : jsval) : jsval :=
  match v with
  | JUndefined => d
  | _ => v
  end.

(** [v === n] against a number literal. *)
Definition strict_eq_num (v : jsval) (n : Z) : bool :=
  match v with
  | JNum m => m =? n
  | _ => false
  end.

(** [v === s] against a string literal. *)
Definition strict_eq_str (v : jsval) (s : string) : bool :=
  match v with
  | JStr t => String.eqb t s
  | _ => false
  end.

Definition isArray (v : jsval) : bool :=
  match v with
  | JArr _ => true
  | _ => false
  end.

(** [v.length] of an array (only read after [Array.isArray]). *)
Definition arr_length (v : jsval) : nat :=
  match v with
  | JArr l => length l
  | _ => O
  end.

(** [arr.includes(v)] for an array of string literals. *)
Definition includes_str (arr : list string) (v : jsval) : bool :=
  match v with
  | JStr s => existsb (String.eqb s) arr
  | _ => false
  end.

(** Truthiness of a string: non-empty. *)
Definition str_truthy (s : string) : bool := negb (String.eqb s "").

(** Truthiness of an optional string property. *)
Definition opt_truthy (o : option string) : bool :=
  match o with
  | Some s => str_truthy s
  | None => false
  end.

End Js.

(** ** The proxy: POST /api/img2video *)

Module Proxy.
Import Js.

(** The fields the handler destructures from [req.body]. *)
Record Body : Type := mkBody {
  images : jsval;
  prompt : jsval;
  model : jsval;
  duration : jsval;
  seed : jsval;
  resolution : jsval;
  movement_amplitude : jsval;
  bgm : jsval;
  payload : jsval;
  callback_url : jsval
}.

(** What the handler does with a request: answer itself with a status
    and an [{error, message}] envelope, or post [requestData] to the
    remote API. *)
Inductive Outcome : Type :=
| Respond (status : Z) (error message : string)
| Forward (requestData : gmap string jsval).

Definition validModels : list string := ["viduq1"; "vidu2.0"; "vidu1.5"].

(** [model = 'viduq1'] in the destructuring pattern. *)
Definition effective_model (b : Body) : jsval :=
  default_to (JStr "viduq1") (model b).

(** [let finalDuration = duration; if (!finalDuration) ...] *)
Definition finalDuration (b : Body) : jsval :=
  if truthy (duration b) then duration b
  else if strict_eq_str (effective_model b) "viduq1" then JNum 5 else JNum 4.

(** [let finalResolution = resolution; if (!finalResolution) ...]; the
    variable stays falsy when no branch assigns it. *)
Definition finalResolution (b : Body) : jsval :=
  if truthy (resolution b) then resolution b
  else if strict_eq_str (effective_model b) "viduq1" then JStr "1080p"
  else if strict_eq_num (finalDuration b) 4 then JStr "360p"
  else if strict_eq_num (finalDuration b) 8 then JStr "720p"
  else resolution b.

(** [if (c) requestData.k = v] *)
Definition set_if (c : bool) (k : string) (v : jsval)
    (m : gmap string jsval) : gmap string jsval :=
  if c then <[k := v]> m else m.

Definition requestData (b : Body) : gmap string jsval :=
  let base : gmap string jsval :=
    <["bgm" := default_to (JBool false) (bgm b)]>
    (<["movement_amplitude" := default_to (JStr "auto") (movement_amplitude b)]>
    (<["duration" := finalDuration b]>
    (<["images" := images b]>
    (<["model" := effective_model b]> ∅)))) in
  set_if (truthy (callback_url b)) "callback_url" (callback_url b)
  (set_if (truthy (payload b)) "payload" (payload b)
  (set_if (truthy (finalResolution b)) "resolution" (finalResolution b)
  (set_if (negb (match seed b with JUndefined => true | _ => false end))
     "seed" (seed b)
  (set_if (truthy (prompt b)) "prompt" (prompt b) base)))).

(** The handler up to the remote call; [apiKey] is
    [process.env.VITE_VIDU_API_KEY]. *)
Definition img2video (apiKey : option string) (b : Body) : Outcome :=
  if negb (opt_truthy apiKey) then
    Respond 500 "API key not configured"
      "VITE_VIDU_API_KEY environment variable is not set"
  else if negb (truthy (images b)) || negb (isArray (images b))
          || Nat.eqb (arr_length (images b)) 0 then
    Respond 400 "Validation Error"
      "images field is required and must be a non-empty array"
  else if Nat.ltb 1 (arr_length (images b)) then
    Respond 400 "Validation Error" "Only 1 image is accepted"
  else if negb (includes_str validModels (effective_model b)) then
    Respond 400 "Validation Error"
      "Invalid model. Accepted values: viduq1, vidu2.0, vidu1.5"
  else Forward (requestData b).

End Proxy.

(** ** Strings as the component uses them *)

Module Str.

Definition newline : string := String (ascii_of_nat 10) "".
Definition dquote : string := String (ascii_of_nat 34) "".
(** The list marker of the not-found message, byte for byte. *)
Definition bullet : string :=
  String.string_of_list_ascii
    (List.map ascii_of_nat [195; 162; 226; 130; 172; 194; 162]%nat).

(** Strings are UTF-8 byte strings. [String.prototype.trim] strips the
    WhiteSpace and LineTerminator code points of ECMAScript; in one
    byte: tab, line feed, vertical tab, form feed, carriage return,
    space. *)
Definition is_space (c : ascii) : bool :=
  let n := nat_of_ascii c in
  (Nat.leb 9 n && Nat.leb n 13) || Nat.eqb n 32.

(** In two bytes: U+00A0 (C2 A0). *)
Definition is_space2 (c1 c2 : ascii) : bool :=
  Nat.eqb (nat_of_ascii c1) 194 && Nat.eqb (nat_of_ascii c2) 160.

(** In three bytes: U+1680 (E1 9A 80), U+2000 to U+200A (E2 80 80 to
    E2 80 8A), U+2028 and U+2029 (E2 80 A8, E2 80 A9), U+202F (E2 80 AF),
    U+205F (E2 81 9F), U+3000 (E3 80 80), U+FEFF (EF BB BF). *)
Definition is_space3 (c1 c2 c3 : ascii) : bool :=
  let n1 := nat_of_ascii c1 in
  let n2 := nat_of_ascii c2 in
  let n3 := nat_of_ascii c3 in
  (Nat.eqb n1 225 && Nat.eqb n2 154 && Nat.eqb n3 128)
  || (Nat.eqb n1 226 && Nat.eqb n2 128
      && ((Nat.leb 128 n3 && Nat.leb n3 138)
          || Nat.eqb n3 168 || Nat.eqb n3 169 || Nat.eqb n3 175))
  || (Nat.eqb n1 226 && Nat.eqb n2 129 && Nat.eqb n3 159)
  || (Nat.eqb n1 227 && Nat.eqb n2 128 && Nat.eqb n3 128)
  || (Nat.eqb n1 239 && Nat.eqb n2 187 && Nat.eqb n3 191).

Fixpoint trim_start (s : string) : string :=
  match s with
  | EmptyString => EmptyString
  | String c1 r1 =>
      if is_space c1 then trim_start r1
      else
        match r1 with
        | EmptyString => s
        | String c2 r2 =>
            if is_space2 c1 c2 then trim_start r2
            else
              match r2 with
              | EmptyString => s
              | String c3 r3 =>
                  if is_space3 c1 c2 c3 then trim_start r3 else s
              end
        end
  end.

(** The suffix that is white space throughout is cut. *)
Fixpoint trim_end (s : string) : string :=
  match s with
  | EmptyString => EmptyString
  | String c r =>
      if String.eqb (trim_start s) "" then "" else String c (trim_end r)
  end.

Definition trim (s : string) : string := trim_end (trim_start s).

(** [toLowerCase] on byte strings: the letters A to Z. The letters
    outside ASCII are left as they are; the code only searches the
    result for ASCII words. *)
Definition lower_char (c : ascii) : ascii :=
  let n := nat_of_ascii c in
  if Nat.leb 65 n && Nat.leb n 90 then ascii_of_nat (n + 32) else c.

Fixpoint toLowerCase (s : string) : string :=
  match s with
  | EmptyString => EmptyString
  | String c r => String (lower_char c) (toLowerCase r)
  end.

(** [hay.includes(needle)] *)
Fixpoint includes (needle hay : string) : bool :=
  String.prefix needle hay
  || match hay with
     | EmptyString => false
     | String _ r => includes needle r
     end.

End Str.

(** ** The VideoGenerator component *)

Module Tracker.
Import Js Str.

(** *** Data shapes (types/vidu) *)

Record ViduTaskCreation : Type := mkCreation {
  id : string;
  url : string;
  cover_url : string
}.

(** [ViduTaskCreationsResponse]; a property the remote leaves out is
    [None]. *)
Record ViduTaskCreationsResponse : Type := mkCreations {
  state : string;
  err_code : option string;
  credits : Z;
  payload : option string;
  creations : option (list ViduTaskCreation)
}.

(** [ViduVideoResponse], the entries of the history table. *)
Record ViduVideoResponse : Type := mkVideo {
  task_id : option string;
  v_state : option string;
  status : string;
  created_at : string;
  updated_at : string;
  v_prompt : string;
  v_model : option string;
  v_style : option string;
  v_duration : option Z;
  v_aspect_ratio : option string;
  v_resolution : option string;
  v_movement_amplitude : option string
}.

(** What a promise of [viduApi] rejects with, as a [catch] sees it. *)
Inductive Thrown : Type :=
| ErrorObject (message : string)
| NotAnError.

(** [err instanceof Error ? err.message : fallback] *)
Definition message_or (fallback : string) (e : Thrown) : string :=
  match e with
  | ErrorObject m => m
  | NotAnError => fallback
  end.

(** A number held in component state; [parseInt] can produce [NaN]. *)
Inductive jsnum : Type :=
| Int (n : Z)
| NaN.

Definition num_truthy (n : jsnum) : bool :=
  match n with
  | Int z => negb (z =? 0)
  | NaN => false
  end.

(** [n.toString()] *)
Definition num_toString (n : jsnum) : string :=
  match n with
  | Int z => pretty z
  | NaN => "NaN"
  end.

Inductive ImageModel : Type := viduq1 | vidu2_0 | vidu1_5.

Definition model_name (m : ImageModel) : string :=
  match m with
  | viduq1 => "viduq1"
  | vidu2_0 => "vidu2.0"
  | vidu1_5 => "vidu1.5"
  end.

Inductive UploadMethod : Type := ByFile | ByUrl.
Inductive Tab : Type := TabGenerate | TabImage | TabLookup.

(** A selected file, with what [FileReader.readAsDataURL] will give for
    it ([None]: the reader fails). *)
Record File : Type := mkFile { dataUrl : option string }.

(** *** Requests sent through [viduApi] *)

Record TextRequest : Type := mkTextRequest {
  tr_prompt : string;
  tr_model : string;
  tr_duration : string;
  tr_aspect_ratio : string;
  tr_style : string;
  tr_seed : string;
  tr_resolution : string;
  tr_movement_amplitude : string
}.

Record ImageRequest : Type := mkImageRequest {
  ir_images : list string;
  ir_model : string;
  ir_duration : string;
  ir_movement_amplitude : string;
  ir_bgm : bool;
  ir_prompt : option string
}.

Inductive Request : Type :=
| PostText2Video (r : TextRequest)
| PostImg2Video (r : ImageRequest)
| GetTaskCreations (taskId : string).

(** What a request settles with. *)
Inductive Settlement : Type :=
| Rejects (e : Thrown)
| VideoData (r : ViduVideoResponse)
| CreationsData (r : ViduTaskCreationsResponse).

(** *** Component state *)

(** The [useState] cells. *)
Record View : Type := mkView {
  prompt : string;
  imagePrompt : string;
  imageFile : option File;
  imageUrl : string;
  uploadMethod : UploadMethod;
  imageModel : ImageModel;
  imageDuration : jsnum;
  imageBgm : bool;
  taskIdInput : string;
  isGenerating : bool;
  isGeneratingFromImage : bool;
  isLookingUp : bool;
  videoHistory : list ViduVideoResponse;
  currentTaskResponse : option ViduVideoResponse;
  taskCreationsResponse : option ViduTaskCreationsResponse;
  error : option string;
  isPolling : bool;
  activeTab : Tab
}.

(** A callback registered by [setInterval] in [pollTaskCreations]. *)
Record Interval : Type := mkInterval {
  i_handle : N;
  i_taskId : string;
  i_due : N
}.

(** The callback registered by [setTimeout] in [pollTaskCreations]: it
    closes over [pollInterval] and over the [taskCreationsResponse] of
    the render whose handler started the poll. *)
Record Timeout : Type := mkTimeout {
  t_handle : N;
  t_pollInterval : N;
  t_taskCreationsResponse : option ViduTaskCreationsResponse;
  t_due : N
}.

(** The rest of an [async] function suspended at its [await]. *)
Inductive Continuation : Type :=
| AwaitGenerate (snapshot : option ViduTaskCreationsResponse)
| AwaitGenerateFromImage (snapshot : option ViduTaskCreationsResponse)
| AwaitPoll (pollInterval : N)
| AwaitLookup (taskId : string)
| AwaitFileRead (f : File) (v : View).

(** The component together with the browser around it: the clock in
    milliseconds, the timer table, the promises in flight and the log
    of requests made (latest first). *)
Record State : Type := mkState {
  view : View;
  now : N;
  next_handle : N;
  intervals : list Interval;
  timeouts : list Timeout;
  inflight : list (N * Continuation);
  requests : list Request
}.

(** The state setters returned by [useState], as functions on [View]. *)

Definition setPrompt (x : string) (v : View) : View :=
  {| prompt := x; imagePrompt := imagePrompt v; imageFile := imageFile v;
     imageUrl := imageUrl v; uploadMethod := uploadMethod v;
     imageModel := imageModel v; imageDuration := imageDuration v;
     imageBgm := imageBgm v; taskIdInput := taskIdInput v;
     isGenerating := isGenerating v;
     isGeneratingFromImage := isGeneratingFromImage v;
     isLookingUp := isLookingUp v; videoHistory := videoHistory v;
     currentTaskResponse := currentTaskResponse v;
     taskCreationsResponse := taskCreationsResponse v; error := error v;
     isPolling := isPolling v; activeTab := activeTab v |}.

Definition setImagePrompt (x : string) (v : View) : View :=
  {| prompt := prompt v; imagePrompt := x; imageFile := imageFile v;
     imageUrl := imageUrl v; uploadMethod := uploadMethod v;
     imageModel := imageModel v; imageDuration := imageDuration v;
     imageBgm := imageBgm v; taskIdInput := taskIdInput v;
     isGenerating := isGenerating v;
     isGeneratingFromImage := isGeneratingFromImage v;
     isLookingUp := isLookingUp v; videoHistory := videoHistory v;
     currentTaskResponse := currentTaskResponse v;
     taskCreationsResponse := taskCreationsResponse v; error := error v;
     isPolling := isPolling v; activeTab := activeTab v |}.

Definition setImageFile (x : option File) (v : View) : View :=
  {| prompt := prompt v; imagePrompt := imagePrompt v; imageFile := x;
     imageUrl := imageUrl v; uploadMethod := uploadMethod v;
     imageModel := imageModel v; imageDuration := imageDuration v;
     imageBgm := imageBgm v; taskIdInput := taskIdInput v;
     isGenerating := isGenerating v;
     isGeneratingFromImage := isGeneratingFromImage v;
     isLookingUp := isLookingUp v; videoHistory := videoHistory v;
     currentTaskResponse := currentTaskResponse v;
     taskCreationsResponse := taskCreationsResponse v; error := error v;
     isPolling := isPolling v; activeTab := activeTab v |}.

Definition setImageUrl (x : string) (v : View) : View :=
  {| prompt := prompt v; imagePrompt := imagePrompt v;
     imageFile := imageFile v; imageUrl := x;
     uploadMethod := uploadMethod v; imageModel := imageModel v;
     imageDuration := imageDuration v; imageBgm := imageBgm v;
     taskIdInput := taskIdInput v; isGenerating := isGenerating v;
     isGeneratingFromImage := isGeneratingFromImage v;
     isLookingUp := isLookingUp v; videoHistory := videoHistory v;
     currentTaskResponse := currentTaskResponse v;
     taskCreationsResponse := taskCreationsResponse v; error := error v;
     isPolling := isPolling v; activeTab := activeTab v |}.

Definition setUploadMethod (x : UploadMethod) (v : View) : View :=
  {| prompt := prompt v; imagePrompt := imagePrompt v;
     imageFile := imageFile v; imageUrl := imageUrl v; uploadMethod := x;
     imageModel := imageModel v; imageDuration := imageDuration v;
     imageBgm := imageBgm v; taskIdInput := taskIdInput v;
     isGenerating := isGenerating v;
     isGeneratingFromImage := isGeneratingFromImage v;
     isLookingUp := isLookingUp v; videoHistory := videoHistory v;
     currentTaskResponse := currentTaskResponse v;
     taskCreationsResponse := taskCreationsResponse v; error := error v;
     isPolling := isPolling v; activeTab := activeTab v |}.

Definition setImageModel (x : ImageModel) (v : View) : View :=
  {| prompt := prompt v; imagePrompt := imagePrompt v;
     imageFile := imageFile v; imageUrl := imageUrl v;
     uploadMethod := uploadMethod v; imageModel := x;
     imageDuration := imageDuration v; imageBgm := imageBgm v;
     taskIdInput := taskIdInput v; isGenerating := isGenerating v;
     isGeneratingFromImage := isGeneratingFromImage v;
     isLookingUp := isLookingUp v; videoHistory := videoHistory v;
     currentTaskResponse := currentTaskResponse v;
     taskCreationsResponse := taskCreationsResponse v; error := error v;
     isPolling := isPolling v; activeTab := activeTab v |}.

Definition setImageDuration (x : jsnum) (v : View) : View :=
  {| prompt := prompt v; imagePrompt := imagePrompt v;
     imageFile := imageFile v; imageUrl := imageUrl v;
     uploadMethod := uploadMethod v; imageModel := imageModel v;
     imageDuration := x; imageBgm := imageBgm v;
     taskIdInput := taskIdInput v; isGenerating := isGenerating v;
     isGeneratingFromImage := isGeneratingFromImage v;
     isLookingUp := isLookingUp v; videoHistory := videoHistory v;
     currentTaskResponse := currentTaskResponse v;
     taskCreationsResponse := taskCreationsResponse v; error := error v;
     isPolling := isPolling v; activeTab := activeTab v |}.

Definition setImageBgm (x : bool) (v : View) : View :=
  {| prompt := prompt v; imagePrompt := imagePrompt v;
     imageFile := imageFile v; imageUrl := imageUrl v;
     uploadMethod := uploadMethod v; imageModel := imageModel v;
     imageDuration := imageDuration v; imageBgm := x;
     taskIdInput := taskIdInput v; isGenerating := isGenerating v;
     isGeneratingFromImage := isGeneratingFromImage v;
     isLookingUp := isLookingUp v; videoHistory := videoHistory v;
     currentTaskResponse := currentTaskResponse v;
     taskCreationsResponse := taskCreationsResponse v; error := error v;
     isPolling := isPolling v; activeTab := activeTab v |}.

Definition setTaskIdInput (x : string) (v : View) : View :=
  {| prompt := prompt v; imagePrompt := imagePrompt v;
     imageFile := imageFile v; imageUrl := imageUrl v;
     uploadMethod := uploadMethod v; imageModel := imageModel v;
     imageDuration := imageDuration v; imageBgm := imageBgm v;
     taskIdInput := x; isGenerating := isGenerating v;
     isGeneratingFromImage := isGeneratingFromImage v;
     isLookingUp := isLookingUp v; videoHistory := videoHistory v;
     currentTaskResponse := currentTaskResponse v;
     taskCreationsResponse := taskCreationsResponse v; error := error v;
     isPolling := isPolling v; activeTab := activeTab v |}.

Definition setIsGenerating (x : bool) (v : View) : View :=
  {| prompt := prompt v; imagePrompt := imagePrompt v;
     imageFile := imageFile v; imageUrl := imageUrl v;
     uploadMethod := uploadMethod v; imageModel := imageModel v;
     imageDuration := imageDuration v; imageBgm := imageBgm v;
     taskIdInput := taskIdInput v; isGenerating := x;
     isGeneratingFromImage := isGeneratingFromImage v;
     isLookingUp := isLookingUp v; videoHistory := videoHistory v;
     currentTaskResponse := currentTaskResponse v;
     taskCreationsResponse := taskCreationsResponse v; error := error v;
     isPolling := isPolling v; activeTab := activeTab v |}.

Definition setIsGeneratingFromImage (x : bool) (v : View) : View :=
  {| prompt := prompt v; imagePrompt := imagePrompt v;
     imageFile := imageFile v; imageUrl := imageUrl v;
     uploadMethod := uploadMethod v; imageModel := imageModel v;
     imageDuration := imageDuration v; imageBgm := imageBgm v;
     taskIdInput := taskIdInput v; isGenerating := isGenerating v;
     isGeneratingFromImage := x; isLookingUp := isLookingUp v;
     videoHistory := videoHistory v;
     currentTaskResponse := currentTaskResponse v;
     taskCreationsResponse := taskCreationsResponse v; error := error v;
     isPolling := isPolling v; activeTab := activeTab v |}.

Definition setIsLookingUp (x : bool) (v : View) : View :=
  {| prompt := prompt v; imagePrompt := imagePrompt v;
     imageFile := imageFile v; imageUrl := imageUrl v;
     uploadMethod := uploadMethod v; imageModel := imageModel v;
     imageDuration := imageDuration v; imageBgm := imageBgm v;
     taskIdInput := taskIdInput v; isGenerating := isGenerating v;
     isGeneratingFromImage := isGeneratingFromImage v; isLookingUp := x;
     videoHistory := videoHistory v;
     currentTaskResponse := currentTaskResponse v;
     taskCreationsResponse := taskCreationsResponse v; error := error v;
     isPolling := isPolling v; activeTab := activeTab v |}.

Definition setVideoHistory (x : list ViduVideoResponse) (v : View) : View :=
  {| prompt := prompt v; imagePrompt := imagePrompt v;
     imageFile := imageFile v; imageUrl := imageUrl v;
     uploadMethod := uploadMethod v; imageModel := imageModel v;
     imageDuration := imageDuration v; imageBgm := imageBgm v;
     taskIdInput := taskIdInput v; isGenerating := isGenerating v;
     isGeneratingFromImage := isGeneratingFromImage v;
     isLookingUp := isLookingUp v; videoHistory := x;
     currentTaskResponse := currentTaskResponse v;
     taskCreationsResponse := taskCreationsResponse v; error := error v;
     isPolling := isPolling v; activeTab := activeTab v |}.

Definition setCurrentTaskResponse (x : option ViduVideoResponse)
    (v : View) : View :=
  {| prompt := prompt v; imagePrompt := imagePrompt v;
     imageFile := imageFile v; imageUrl := imageUrl v;
     uploadMethod := uploadMethod v; imageModel := imageModel v;
     imageDuration := imageDuration v; imageBgm := imageBgm v;
     taskIdInput := taskIdInput v; isGenerating := isGenerating v;
     isGeneratingFromImage := isGeneratingFromImage v;
     isLookingUp := isLookingUp v; videoHistory := videoHistory v;
     currentTaskResponse := x;
     taskCreationsResponse := taskCreationsResponse v; error := error v;
     isPolling := isPolling v; activeTab := activeTab v |}.

Definition setTaskCreationsResponse
    (x : option ViduTaskCreationsResponse) (v : View) : View :=
  {| prompt := prompt v; imagePrompt := imagePrompt v;
     imageFile := imageFile v; imageUrl := imageUrl v;
     uploadMethod := uploadMethod v; imageModel := imageModel v;
     imageDuration := imageDuration v; imageBgm := imageBgm v;
     taskIdInput := taskIdInput v; isGenerating := isGenerating v;
     isGeneratingFromImage := isGeneratingFromImage v;
     isLookingUp := isLookingUp v; videoHistory := videoHistory v;
     currentTaskResponse := currentTaskResponse v;
     taskCreationsResponse := x; error := error v;
     isPolling := isPolling v; activeTab := activeTab v |}.

Definition setError (x : option string) (v : View) : View :=
  {| prompt := prompt v; imagePrompt := imagePrompt v;
     imageFile := imageFile v; imageUrl := imageUrl v;
     uploadMethod := uploadMethod v; imageModel := imageModel v;
     imageDuration := imageDuration v; imageBgm := imageBgm v;
     taskIdInput := taskIdInput v; isGenerating := isGenerating v;
     isGeneratingFromImage := isGeneratingFromImage v;
     isLookingUp := isLookingUp v; videoHistory := videoHistory v;
     currentTaskResponse := currentTaskResponse v;
     taskCreationsResponse := taskCreationsResponse v; error := x;
     isPolling := isPolling v; activeTab := activeTab v |}.

Definition setIsPolling (x : bool) (v : View) : View :=
  {| prompt := prompt v; imagePrompt := imagePrompt v;
     imageFile := imageFile v; imageUrl := imageUrl v;
     uploadMethod := uploadMethod v; imageModel := imageModel v;
     imageDuration := imageDuration v; imageBgm := imageBgm v;
     taskIdInput := taskIdInput v; isGenerating := isGenerating v;
     isGeneratingFromImage := isGeneratingFromImage v;
     isLookingUp := isLookingUp v; videoHistory := videoHistory v;
     currentTaskResponse := currentTaskResponse v;
     taskCreationsResponse := taskCreationsResponse v; error := error v;
     isPolling := x; activeTab := activeTab v |}.

Definition setActiveTab (x : Tab) (v : View) : View :=
  {| prompt := prompt v; imagePrompt := imagePrompt v;
     imageFile := imageFile v; imageUrl := imageUrl v;
     uploadMethod := uploadMethod v; imageModel := imageModel v;
     imageDuration := imageDuration v; imageBgm := imageBgm v;
     taskIdInput := taskIdInput v; isGenerating := isGenerating v;
     isGeneratingFromImage := isGeneratingFromImage v;
     isLookingUp := isLookingUp v; videoHistory := videoHistory v;
     currentTaskResponse := currentTaskResponse v;
     taskCreationsResponse := taskCreationsResponse v; error := error v;
     isPolling := isPolling v; activeTab := x |}.

(** Updates of the browser side of [State]. *)

Definition with_view (x : View) (s : State) : State :=
  {| view := x; now := now s; next_handle := next_handle s;
     intervals := intervals s; timeouts := timeouts s;
     inflight := inflight s; requests := requests s |}.

Definition with_now (x : N) (s : State) : State :=
  {| view := view s; now := x; next_handle := next_handle s;
     intervals := intervals s; timeouts := timeouts s;
     inflight := inflight s; requests := requests s |}.

Definition with_next_handle (x : N) (s : State) : State :=
  {| view := view s; now := now s; next_handle := x;
     intervals := intervals s; timeouts := timeouts s;
     inflight := inflight s; requests := requests s |}.

Definition with_intervals (x : list Interval) (s : State) : State :=
  {| view := view s; now := now s; next_handle := next_handle s;
     intervals := x; timeouts := timeouts s; inflight := inflight s;
     requests := requests s |}.

Definition with_timeouts (x : list Timeout) (s : State) : State :=
  {| view := view s; now := now s; next_handle := next_handle s;
     intervals := intervals s; timeouts := x; inflight := inflight s;
     requests := requests s |}.

Definition with_inflight (x : list (N * Continuation)) (s : State) : State :=
  {| view := view s; now := now s; next_handle := next_handle s;
     intervals := intervals s; timeouts := timeouts s; inflight := x;
     requests := requests s |}.

Definition with_requests (x : list Request) (s : State) : State :=
  {| view := view s; now := now s; next_handle := next_handle s;
     intervals := intervals s; timeouts := timeouts s;
     inflight := inflight s; requests := x |}.

(** *** Browser primitives *)

Notation "s |> f" := (f s) (at level 45, left associativity, only parsing).

(** A state setter called from a handler. *)
Definition render (f : View -> View) (s : State) : State :=
  with_view (f (view s)) s.

(** Send [req]; the caller is suspended as [k] until the promise
    settles. *)
Definition fetch (req : Request) (k : Continuation) (s : State) : State :=
  s |> with_inflight ((next_handle s, k) :: inflight s)
    |> with_requests (req :: requests s)
    |> with_next_handle (N.succ (next_handle s)).

Definition has_handle (h : N) (i : Interval) : bool := (i_handle i =? h)%N.

(** [clearInterval(h)]; clearing a handle that is not registered does
    nothing. *)
Definition clearInterval (h : N) (s : State) : State :=
  with_intervals (List.filter (fun i => negb (has_handle h i)) (intervals s)) s.

(** *** pollTaskCreations *)

Definition POLL_MS : N := 5000.
Definition TIMEOUT_MS : N := 600000.

(** [response.creations && response.creations.length > 0], and
    [creations?.length] as a condition. *)
Definition has_creations (c : option (list ViduTaskCreation)) : bool :=
  match c with
  | Some (_ :: _) => true
  | _ => false
  end.

(** [taskCreationsResponse?.creations?.length] as a condition. *)
Definition snapshot_has_creations
    (r : option ViduTaskCreationsResponse) : bool :=
  match r with
  | Some r => has_creations (creations r)
  | None => false
  end.

(** [a || b] on an optional string and a literal. *)
Definition or_else (a : option string) (b : string) : string :=
  match a with
  | Some s => if str_truthy s then s else b
  | None => b
  end.

(** [pollTaskCreations(taskId)], called from a handler whose render saw
    [snapshot] in [taskCreationsResponse]: registers the interval and
    the timeout. Neither handle leaves the function. *)
Definition pollTaskCreations (taskId : string)
    (snapshot : option ViduTaskCreationsResponse) (s : State) : State :=
  let pollInterval := next_handle s in
  let timer := N.succ pollInterval in
  s |> with_intervals
         (mkInterval pollInterval taskId (now s + POLL_MS) :: intervals s)
    |> with_timeouts
         (mkTimeout timer pollInterval snapshot (now s + TIMEOUT_MS)
            :: timeouts s)
    |> with_next_handle (N.succ timer).

(** The interval callback up to its [await]. *)
Definition intervalCallback (i : Interval) (s : State) : State :=
  fetch (GetTaskCreations (i_taskId i)) (AwaitPoll (i_handle i)) s.

(** The interval callback after [await viduApi.getTaskCreations]. *)
Definition intervalCallback_resume (pollInterval : N) (r : Settlement)
    (s : State) : option State :=
  match r with
  | CreationsData response =>
      let s1 := render (setTaskCreationsResponse (Some response)) s in
      if String.eqb (state response) "success"
         && has_creations (creations response) then
        Some (s1 |> clearInterval pollInterval
                 |> render (setIsPolling false))
      else if String.eqb (state response) "error"
              || opt_truthy (err_code response) then
        Some (s1 |> clearInterval pollInterval
                 |> render (setIsPolling false)
                 |> render (setError
                      (Some (or_else (err_code response)
                               "Video generation failed"))))
      else Some s1
  | Rejects e =>
      Some (s |> clearInterval pollInterval
              |> render (setIsPolling false)
              |> render (setError
                   (Some (message_or "Failed to check video status" e))))
  | VideoData _ => None
  end.

(** The timeout callback. *)
Definition timeoutCallback (t : Timeout) (s : State) : State :=
  let s1 := s |> clearInterval (t_pollInterval t)
              |> render (setIsPolling false) in
  if negb (snapshot_has_creations (t_taskCreationsResponse t)) then
    render (setError (Some "Video generation timed out. Please try again."))
      s1
  else s1.

(** *** handleSubmit *)

Definition textRequest (v : View) : TextRequest :=
  {| tr_prompt := trim (prompt v); tr_model := "viduq1";
     tr_duration := "5"; tr_aspect_ratio := "16:9";
     tr_style := "general"; tr_seed := "0"; tr_resolution := "1080p";
     tr_movement_amplitude := "auto" |}.

(** [handleSubmit] up to its [await]. *)
Definition handleSubmit (s : State) : State :=
  let v := view s in
  if negb (str_truthy (trim (prompt v))) || isGenerating v then s
  else
    s |> render (setIsGenerating true)
      |> render (setError None)
      |> render (setCurrentTaskResponse None)
      |> render (setTaskCreationsResponse None)
      |> render (setIsPolling false)
      |> fetch (PostText2Video (textRequest v))
           (AwaitGenerate (taskCreationsResponse v)).

(** [if (response.task_id) { setIsPolling(true); pollTaskCreations(..) }] *)
Definition startPolling (response : ViduVideoResponse)
    (snapshot : option ViduTaskCreationsResponse) (s : State) : State :=
  match task_id response with
  | Some t =>
      if str_truthy t then
        s |> render (setIsPolling true) |> pollTaskCreations t snapshot
      else s
  | None => s
  end.

(** The [try] body after the [await], [catch] and [finally], shared by
    [handleSubmit] and [handleImageSubmit] up to the fallback message and
    the flag reset in [finally]. *)
Definition generate_resume (fallback : string) (done : View -> View)
    (snapshot : option ViduTaskCreationsResponse) (r : Settlement)
    (s : State) : option State :=
  match r with
  | VideoData response =>
      Some (s |> render (setCurrentTaskResponse (Some response))
              |> render (fun v =>
                   setVideoHistory (response :: videoHistory v) v)
              |> startPolling response snapshot
              |> render done)
  | Rejects e =>
      Some (s |> render (setError (Some (message_or fallback e)))
              |> render done)
  | CreationsData _ => None
  end.

Definition handleSubmit_resume :=
  generate_resume "Failed to generate video" (setIsGenerating false).

(** *** handleImageSubmit *)

Definition defaultDuration (m : ImageModel) : jsnum :=
  match m with
  | viduq1 => Int 5
  | _ => Int 4
  end.

(** [imageDuration || defaultDuration] *)
Definition finalDuration (v : View) : jsnum :=
  if num_truthy (imageDuration v) then imageDuration v
  else defaultDuration (imageModel v).

Definition imageRequest (img : string) (v : View) : ImageRequest :=
  {| ir_images := [img]; ir_model := model_name (imageModel v);
     ir_duration := num_toString (finalDuration v);
     ir_movement_amplitude := "auto"; ir_bgm := imageBgm v;
     ir_prompt := if str_truthy (trim (imagePrompt v))
                  then Some (trim (imagePrompt v)) else None |}.

(** Suspend the caller as [k] on a promise that is no request (the
    [FileReader] of [fileToDataUrl]). *)
Definition suspend (k : Continuation) (s : State) : State :=
  s |> with_inflight ((next_handle s, k) :: inflight s)
    |> with_next_handle (N.succ (next_handle s)).

(** [handleImageSubmit] from "Set default duration based on model" up to
    [await viduApi.generateVideoFromImage], for the image reference
    [img]; [v] is the render the handler closes over. *)
Definition submitImage (v : View) (img : string) (s : State) : State :=
  s |> render (setIsGeneratingFromImage true)
    |> render (setError None)
    |> render (setCurrentTaskResponse None)
    |> render (setTaskCreationsResponse None)
    |> render (setIsPolling false)
    |> fetch (PostImg2Video (imageRequest img v))
         (AwaitGenerateFromImage (taskCreationsResponse v)).

(** [handleImageSubmit] up to its first [await]: for a URL that is the
    request, for a file the read of the file. The busy flag is tested
    here and set in [submitImage]. *)
Definition handleImageSubmit (s : State) : State :=
  let v := view s in
  if isGeneratingFromImage v then s
  else
    match uploadMethod v with
    | ByUrl =>
        if negb (str_truthy (trim (imageUrl v))) then
          render (setError (Some "Please provide an image URL")) s
        else submitImage v (trim (imageUrl v)) s
    | ByFile =>
        match imageFile v with
        | None => render (setError (Some "Please select an image file")) s
        | Some f => suspend (AwaitFileRead f v) s
        end
    end.

(** [handleImageSubmit] after [await fileToDataUrl(imageFile)]. *)
Definition handleImageSubmit_read (f : File) (v : View) (s : State)
    : State :=
  match dataUrl f with
  | Some d => submitImage v d s
  | None => render (setError (Some "Failed to process image file")) s
  end.

Definition handleImageSubmit_resume :=
  generate_resume "Failed to generate video from image"
    (setIsGeneratingFromImage false).

(** *** Status projections and retry *)

(** [getGeneratedVideo] *)
Definition getGeneratedVideo (v : View) : option ViduTaskCreation :=
  match taskCreationsResponse v with
  | Some r =>
      if String.eqb (state r) "success" && has_creations (creations r) then
        match creations r with
        | Some (c :: _) => Some c
        | _ => None
        end
      else None
  | None => None
  end.

(** [getCurrentStatus] *)
Definition getCurrentStatus (v : View) : string :=
  if isPolling v then "processing"
  else if match taskCreationsResponse v with
          | Some r =>
              String.eqb (state r) "success" && has_creations (creations r)
          | None => false
          end then "completed"
  else if match taskCreationsResponse v with
          | Some r => String.eqb (state r) "error" || opt_truthy (err_code r)
          | None => false
          end then "failed"
  else if match currentTaskResponse v with
          | Some r => opt_truthy (task_id r)
          | None => false
          end then "pending"
  else "idle".

(** The message the error panel shows: [{error && <ErrorDisplay .../>}]. *)
Definition surfaced (v : View) : option string :=
  match error v with
  | Some e => if str_truthy e then Some e else None
  | None => None
  end.

(** [handleRetry] *)
Definition handleRetry (s : State) : State :=
  s |> render (setError None)
    |> render (setTaskCreationsResponse None)
    |> render (setCurrentTaskResponse None)
    |> render (setIsPolling false).

(** *** handleTaskLookup *)

(** [handleTaskLookup] up to its [await]. *)
Definition handleTaskLookup (s : State) : State :=
  let v := view s in
  if negb (str_truthy (trim (taskIdInput v))) || isLookingUp v then s
  else
    s |> render (setIsLookingUp true)
      |> render (setError None)
      |> render (setCurrentTaskResponse None)
      |> render (setTaskCreationsResponse None)
      |> render (setIsPolling false)
      |> fetch (GetTaskCreations (trim (taskIdInput v)))
           (AwaitLookup (trim (taskIdInput v))).

(** [response.state === 'success' ? 'completed'
      : response.state === 'error' ? 'failed' : 'processing'] *)
Definition lookupStatus (remote : string) : string :=
  if String.eqb remote "success" then "completed"
  else if String.eqb remote "error" then "failed"
  else "processing".

(** The [mockResponse] object; [created] and [updated] are the two
    [new Date().toISOString()] readings. *)
Definition mockResponse (taskId : string)
    (response : ViduTaskCreationsResponse) (created updated : string)
    : ViduVideoResponse :=
  {| task_id := Some taskId;
     v_state := Some (state response);
     status := lookupStatus (state response);
     created_at := created;
     updated_at := updated;
     v_prompt := or_else (payload response) "Retrieved from task ID";
     v_model := Some "viduq1";
     v_style := Some "general";
     v_duration := Some 5;
     v_aspect_ratio := Some "16:9";
     v_resolution := Some "1080p";
     v_movement_amplitude := Some "auto" |}.

(** [video.task_id === taskId] *)
Definition same_task (taskId : string) (video : ViduVideoResponse) : bool :=
  match task_id video with
  | Some t => String.eqb t taskId
  | None => false
  end.

(** The updater passed to [setVideoHistory] by the lookup. *)
Definition addIfAbsent (taskId : string) (mock : ViduVideoResponse)
    (prev : list ViduVideoResponse) : list ViduVideoResponse :=
  if existsb (same_task taskId) prev then prev else mock :: prev.

Definition notFoundMessage (taskId : string) : string :=
  "Task ID " +:+ dquote +:+ taskId +:+ dquote
  +:+ " was not found. Please verify that:" +:+ newline
  +:+ bullet +:+ " The task ID is correct and complete" +:+ newline
  +:+ bullet +:+ " The video generation was successful" +:+ newline
  +:+ bullet +:+ " The task ID belongs to your account" +:+ newline
  +:+ bullet
  +:+ " The task hasn't expired (tasks may have a limited lifespan)".

(** The message computed in the [catch] of [handleTaskLookup]. *)
Definition lookupErrorMessage (taskId : string) (e : Thrown) : string :=
  match e with
  | NotAnError => "Failed to retrieve video"
  | ErrorObject m =>
      let lower := toLowerCase m in
      if includes "404" m || includes "not found" lower then
        notFoundMessage taskId
      else if includes "unauthorized" lower || includes "401" lower then
        "Authentication failed. Please check your API key configuration."
      else if includes "timeout" lower then
        "Request timed out. Please try again."
      else m
  end.

(** [handleTaskLookup] after the [await]. *)
Definition handleTaskLookup_resume (taskId : string) (created updated : string)
    (r : Settlement) (s : State) : option State :=
  match r with
  | CreationsData response =>
      let mock := mockResponse taskId response created updated in
      Some (s |> render (setTaskCreationsResponse (Some response))
              |> render (setCurrentTaskResponse (Some mock))
              |> render (fun v =>
                   setVideoHistory (addIfAbsent taskId mock (videoHistory v))
                     v)
              |> render (setTaskIdInput "")
              |> render (setIsLookingUp false))
  | Rejects e =>
      Some (s |> render (setError (Some (lookupErrorMessage taskId e)))
              |> render (setIsLookingUp false))
  | VideoData _ => None
  end.

(** *** The event loop *)

(** What can happen to the mounted component: the user edits a field or
    sends a form, a request settles, the read of a file ends, a timer
    fires, time passes. *)
Inductive Event : Type :=
| TypePrompt (x : string)
| TypeImagePrompt (x : string)
| TypeImageUrl (x : string)
| ChooseFile (f : File)
| ChooseUploadMethod (m : UploadMethod)
| SelectModel (m : ImageModel)
| SelectDuration (n : jsnum)
| ToggleBgm (b : bool)
| TypeTaskId (x : string)
| SwitchTab (t : Tab)
| Submit
| ImageSubmit
| TaskLookup
| Retry
| Settle (rid : N) (r : Settlement) (created updated : string)
| FileRead (rid : N)
| IntervalFires (h : N)
| TimeoutFires (h : N)
| Elapse (ms : N).

Definition find_interval (h : N) (s : State) : option Interval :=
  List.find (has_handle h) (intervals s).

Definition find_timeout (h : N) (s : State) : option Timeout :=
  List.find (fun t => (t_handle t =? h)%N) (timeouts s).

Definition find_inflight (rid : N) (s : State) : option Continuation :=
  match List.find (fun p => (fst p =? rid)%N) (inflight s) with
  | Some p => Some (snd p)
  | None => None
  end.

(** The interval is due again one period later. *)
Definition reschedule (h : N) (s : State) : State :=
  with_intervals
    (List.map (fun i =>
       if has_handle h i
       then mkInterval (i_handle i) (i_taskId i) (i_due i + POLL_MS)
       else i) (intervals s)) s.

Definition drop_timeout (h : N) (s : State) : State :=
  with_timeouts
    (List.filter (fun t => negb (t_handle t =? h)%N) (timeouts s)) s.

Definition drop_inflight (rid : N) (s : State) : State :=
  with_inflight
    (List.filter (fun p => negb (fst p =? rid)%N) (inflight s)) s.

Definition resume (k : Continuation) (created updated : string)
    (r : Settlement) (s : State) : option State :=
  match k with
  | AwaitGenerate snapshot => handleSubmit_resume snapshot r s
  | AwaitGenerateFromImage snapshot => handleImageSubmit_resume snapshot r s
  | AwaitPoll pollInterval => intervalCallback_resume pollInterval r s
  | AwaitLookup taskId => handleTaskLookup_resume taskId created updated r s
  | AwaitFileRead _ _ => None
  end.

(** One turn of the event loop. [None]: the event cannot happen in [s]
    (a timer that is not registered or not yet due, a request or a read
    that is not in flight, a payload of the wrong shape). A handler that returns
    early gives [Some s]. *)
Definition step (e : Event) (s : State) : option State :=
  match e with
  | TypePrompt x => Some (render (setPrompt x) s)
  | TypeImagePrompt x => Some (render (setImagePrompt x) s)
  | TypeImageUrl x => Some (render (setImageUrl x) s)
  | ChooseFile f => Some (render (setImageFile (Some f)) s)
  | ChooseUploadMethod m => Some (render (setUploadMethod m) s)
  | SelectModel m =>
      Some (s |> render (setImageModel m)
              |> render (setImageDuration (defaultDuration m)))
  | SelectDuration n => Some (render (setImageDuration n) s)
  | ToggleBgm b => Some (render (setImageBgm b) s)
  | TypeTaskId x => Some (render (setTaskIdInput x) s)
  | SwitchTab t => Some (render (setActiveTab t) s)
  | Submit => Some (handleSubmit s)
  | ImageSubmit => Some (handleImageSubmit s)
  | TaskLookup => Some (handleTaskLookup s)
  | Retry => Some (handleRetry s)
  | Settle rid r created updated =>
      match find_inflight rid s with
      | Some k => resume k created updated r (drop_inflight rid s)
      | None => None
      end
  | FileRead rid =>
      match find_inflight rid s with
      | Some (AwaitFileRead f v) =>
          Some (handleImageSubmit_read f v (drop_inflight rid s))
      | _ => None
      end
  | IntervalFires h =>
      match find_interval h s with
      | Some i =>
          if (i_due i <=? now s)%N
          then Some (s |> reschedule h |> intervalCallback i)
          else None
      | None => None
      end
  | TimeoutFires h =>
      match find_timeout h s with
      | Some t =>
          if (t_due t <=? now s)%N
          then Some (s |> drop_timeout h |> timeoutCallback t)
          else None
      | None => None
      end
  | Elapse ms => Some (with_now (now s + ms)%N s)
  end.

Fixpoint run (es : list Event) (s : State) : option State :=
  match es with
  | [] => Some s
  | e :: es' =>
      match step e s with
      | Some s' => run es' s'
      | None => None
      end
  end.

(** The component as mounted. *)
Definition initialView : View :=
  {| prompt := ""; imagePrompt := ""; imageFile := None; imageUrl := "";
     uploadMethod := ByUrl; imageModel := viduq1; imageDuration := Int 5;
     imageBgm := false; taskIdInput := ""; isGenerating := false;
     isGeneratingFromImage := false; isLookingUp := false;
     videoHistory := []; currentTaskResponse := None;
     taskCreationsResponse := None; error := None; isPolling := false;
     activeTab := TabGenerate |}.

Definition initial : State :=
  {| view := initialView; now := 0%N; next_handle := 1%N; intervals := [];
     timeouts := []; inflight := []; requests := [] |}.

(** *** Observations on the timer table *)

(** The interval with handle [h] is registered. *)
Definition registered (h : N) (s : State) : bool :=
  existsb (has_handle h) (intervals s).

(** The states the mounted component can be in. *)
Definition reachable (s : State) : Prop :=
  ∃ es, run es initial = Some s.

(** Every timeout closes over an interval handle handed out earlier. *)
Definition handles_issued (s : State) : Prop :=
  Forall (λ t, (t_pollInterval t < next_handle s)%N) (timeouts s).

(** *** The client's request as the proxy receives it *)

(** [JSON.stringify] of the [generateVideoFromImage] argument, parsed by
    [express.json()]. *)
Definition toBody (r : ImageRequest) : Proxy.Body :=
  {| Proxy.images := JArr (List.map JStr (ir_images r));
     Proxy.prompt := match ir_prompt r with
                     | Some p => JStr p
                     | None => JUndefined
                     end;
     Proxy.model := JStr (ir_model r);
     Proxy.duration := JStr (ir_duration r);
     Proxy.seed := JUndefined;
     Proxy.resolution := JUndefined;
     Proxy.movement_amplitude := JStr (ir_movement_amplitude r);
     Proxy.bgm := JBool (ir_bgm r);
     Proxy.payload := JUndefined;
     Proxy.callback_url := JUndefined |}.

End Tracker.

(** ** Values over the wire *)

Module Wire.
Import Js.

(** [v.k] (and [v?.k]) for the property names the code reads: own
    properties of a parsed JSON object, [undefined] on anything else. *)
Fixpoint assoc (k : string) (l : list (string * jsval)) : jsval :=
  match l with
  | [] => JUndefined
  | (k', v) :: r => if String.eqb k' k then v else assoc k r
  end.

Definition get (k : string) (v : jsval) : jsval :=
  match v with
  | JObj l => assoc k l
  | _ => JUndefined
  end.

(** [String(v)], which is the [message] of [new Error(v)]. *)
Fixpoint toStr (v : jsval) : string :=
  match v with
  | JUndefined => "undefined"
  | JNull => "null"
  | JBool true => "true"
  | JBool false => "false"
  | JNum n => pretty n
  | JStr s => s
  | JArr l =>
      (fix join (l : list jsval) : string :=
         match l with
         | [] => ""
         | x :: r =>
             let e := match x with
                      | JUndefined | JNull => ""
                      | _ => toStr x
                      end in
             match r with
             | [] => e
             | _ => e +:+ "," +:+ join r
             end
         end) l
  | JObj _ => "[object Object]"
  end.

(** [typeof v === 'object'] for a truthy [v]. *)
Definition is_object (v : jsval) : bool :=
  match v with
  | JArr _ | JObj _ => true
  | _ => false
  end.

Definition is_string (v : jsval) : bool :=
  match v with
  | JStr _ => true
  | _ => false
  end.

Definition is_undefined (v : jsval) : bool :=
  match v with
  | JUndefined => true
  | _ => false
  end.

(** An HTTP response as axios hands it over. *)
Record Response : Type := mkResponse {
  r_status : Z;
  r_statusText : string;
  r_data : jsval
}.

(** The error a failed axios call rejects with. *)
Record AxiosError : Type := mkAxiosError {
  e_response : option Response;
  e_code : option string;
  e_message : string
}.

(** What a route answers: [res.status(s).json(b)]. *)
Record Reply : Type := mkReply {
  status : Z;
  body : jsval
}.

End Wire.

(** ** The proxy's other routes and its error envelope *)

Module Routes.
Import Js Wire.

(** What the call to the remote API comes to. *)
Inductive Remote : Type :=
| Answers (data : jsval)
| Fails (e : AxiosError).

(** The envelope of a missing API key. *)
Definition notConfigured : Reply :=
  {| status := 500;
     body := JObj [("error", JStr "API key not configured");
                   ("message",
                    JStr "VITE_VIDU_API_KEY environment variable is not set")]
  |}.

(** The [catch] block the four routes share; [extra] is the [taskId]
    property the creations route adds. *)
Definition onError (extra : list (string * jsval)) (e : AxiosError) : Reply :=
  match e_response e with
  | Some r =>
      let errorData := if truthy (r_data r) then r_data r else JObj [] in
      {| status := r_status r;
         body := JObj ([("error", JStr "Vidu API Error");
                        ("message",
                         if truthy (get "message" errorData)
                         then get "message" errorData
                         else JStr ("HTTP " +:+ pretty (r_status r) +:+ ": "
                                    +:+ r_statusText r));
                        ("details", errorData)] ++ extra) |}
  | None =>
      if match e_code e with
         | Some c => String.eqb c "ECONNABORTED"
         | None => false
         end
      then {| status := 408;
              body := JObj ([("error", JStr "Request Timeout");
                             ("message",
                              JStr "The request to Vidu API timed out")]
                            ++ extra) |}
      else {| status := 500;
              body := JObj ([("error", JStr "Server Error");
                             ("message",
                              JStr ("An unexpected error occurred: "
                                    +:+ e_message e))]
                            ++ extra) |}
  end.

(** [res.json(response.data)], or the [catch]. *)
Definition relay (extra : list (string * jsval)) (r : Remote) : Reply :=
  match r with
  | Answers data => {| status := 200; body := data |}
  | Fails e => onError extra e
  end.

(** The fields [POST /api/text2video] destructures. *)
Record TextBody : Type := mkTextBody {
  prompt : jsval;
  model : jsval;
  duration : jsval;
  aspect_ratio : jsval;
  style : jsval;
  seed : jsval;
  resolution : jsval;
  movement_amplitude : jsval
}.

(** The JSON posted to the remote by [/api/text2video]: the defaults are
    in, and a [prompt] that is [undefined] is not serialized. *)
Definition textRequestData (b : TextBody) : gmap string jsval :=
  Proxy.set_if (negb (is_undefined (prompt b))) "prompt" (prompt b)
    (<["movement_amplitude" :=
         default_to (JStr "auto") (movement_amplitude b)]>
    (<["resolution" := default_to (JStr "1080p") (resolution b)]>
    (<["seed" := default_to (JStr "0") (seed b)]>
    (<["style" := default_to (JStr "general") (style b)]>
    (<["aspect_ratio" := default_to (JStr "16:9") (aspect_ratio b)]>
    (<["duration" := default_to (JStr "5") (duration b)]>
    (<["model" := default_to (JStr "viduq1") (model b)]> ∅))))))).

(** [POST /api/text2video] up to the remote call: [None] when the key is
    missing, else the body posted. *)
Definition text2video (apiKey : option string) (b : TextBody)
    : option (gmap string jsval) :=
  if negb (opt_truthy apiKey) then None else Some (textRequestData b).

(** [POST /api/text2video] *)
Definition text2video_reply (apiKey : option string) (b : TextBody)
    (remote : Remote) : Reply :=
  match text2video apiKey b with
  | None => notConfigured
  | Some _ => relay [] remote
  end.

(** [POST /api/img2video] *)
Definition img2video_reply (apiKey : option string) (b : Proxy.Body)
    (remote : Remote) : Reply :=
  match Proxy.img2video apiKey b with
  | Proxy.Respond st err msg =>
      {| status := st;
         body := JObj [("error", JStr err); ("message", JStr msg)] |}
  | Proxy.Forward _ => relay [] remote
  end.

(** [GET /api/videos/:videoId] *)
Definition videos_reply (apiKey : option string) (videoId : string)
    (remote : Remote) : Reply :=
  if negb (opt_truthy apiKey) then notConfigured else relay [] remote.

(** [GET /api/tasks/:taskId/creations] *)
Definition creations_reply (apiKey : option string) (taskId : string)
    (remote : Remote) : Reply :=
  if negb (opt_truthy apiKey) then notConfigured
  else relay [("taskId", JStr taskId)] remote.

End Routes.

(** ** The browser's API client *)

Module ApiClient.
Import Js Wire.

(** The message of the [Error] the response interceptor throws for a
    rejected request. *)
Definition interceptor (e : AxiosError) : string :=
  let data := match e_response e with
              | Some r => r_data r
              | None => JUndefined
              end in
  let st := match e_response e with
            | Some r => Some (r_status r)
            | None => None
            end in
  let detail := get "detail" data in
  let rest :=
    if truthy (get "error" data) then toStr (get "error" data)
    else if truthy (get "message" data) then toStr (get "message" data)
    else match e_response e with
         | Some r =>
             if r_status r =? 404 then
               "Task not found on Vidu API. The task ID may be invalid, expired, or belong to a different account."
             else if r_status r =? 401 then
               "Unauthorized access. Please check your API key configuration."
             else if r_status r =? 403 then
               "Access forbidden. Please verify your API key permissions."
             else if negb (r_status r =? 0) then
               "API request failed with status " +:+ pretty (r_status r)
               +:+ ": "
               +:+ (if str_truthy (r_statusText r) then r_statusText r
                    else "Unknown error")
             else if str_truthy (e_message e) then e_message e
             else "An unexpected error occurred"
         | None =>
             if str_truthy (e_message e) then e_message e
             else "An unexpected error occurred"
         end in
  if truthy detail then
    if is_object detail && truthy (get "message" detail) then
      toStr (get "message" detail)
    else if is_string detail then toStr detail
    else rest
  else rest.

(** What a method of [viduApi] rejects with: the interceptor's [Error],
    rethrown as it is. *)
Definition rejection (e : AxiosError) : Tracker.Thrown :=
  Tracker.ErrorObject (interceptor e).

(** The browser's view of a reply of the proxy with a status that axios
    rejects: the reply's status and body, the status text of the
    transport, axios's own message. *)
Definition received (r : Reply) (statusText message : string) : AxiosError :=
  {| e_response := Some {| r_status := status r;
                           r_statusText := statusText;
                           r_data := body r |};
     e_code := Some "ERR_BAD_RESPONSE";
     e_message := message |}.

(** [JSON.stringify] of the [generateVideo] argument, parsed by
    [express.json()]. *)
Definition toTextBody (r : Tracker.TextRequest) : Routes.TextBody :=
  {| Routes.prompt := JStr (Tracker.tr_prompt r);
     Routes.model := JStr (Tracker.tr_model r);
     Routes.duration := JStr (Tracker.tr_duration r);
     Routes.aspect_ratio := JStr (Tracker.tr_aspect_ratio r);
     Routes.style := JStr (Tracker.tr_style r);
     Routes.seed := JStr (Tracker.tr_seed r);
     Routes.resolution := JStr (Tracker.tr_resolution r);
     Routes.movement_amplitude := JStr (Tracker.tr_movement_amplitude r) |}.

End ApiClient.

(** ** Observations on the component's state *)

Module Observe.
Import Js Str Tracker.

Definition is_generate (k : Continuation) : bool :=
  match k with
  | AwaitGenerate _ => true
  | _ => false
  end.

Definition is_generateFromImage (k : Continuation) : bool :=
  match k with
  | AwaitGenerateFromImage _ => true
  | _ => false
  end.

Definition is_lookup (k : Continuation) : bool :=
  match k with
  | AwaitLookup _ => true
  | _ => false
  end.

(** How many of the requests in flight are awaited by a continuation of
    the given kind. *)
Definition awaiting (kind : Continuation -> bool) (s : State) : nat :=
  length (List.filter (fun p => kind (snd p)) (inflight s)).

(** The ids of the requests in flight are distinct and were handed out
    before [next_handle]. *)
Definition ids_fresh (s : State) : Prop :=
  NoDup (List.map fst (inflight s))
  ∧ Forall (fun p => (fst p < next_handle s)%N) (inflight s).

Definition is_fileRead (k : Continuation) : bool :=
  match k with
  | AwaitFileRead _ _ => true
  | _ => false
  end.

(** The busy flags of the text form and of the lookup are set exactly
    while one request of theirs is in flight; the flag of the image form
    is set only while a request of its form is in flight. *)
Definition flags_match (s : State) : Prop :=
  awaiting is_generate s = Nat.b2n (isGenerating (view s))
  ∧ (Nat.b2n (isGeneratingFromImage (view s))
     ≤ awaiting is_generateFromImage s)%nat
  ∧ awaiting is_lookup s = Nat.b2n (isLookingUp (view s)).


(** Timers come in pairs: a timeout's handle follows the handle of the
    interval it closes over, and every registered interval has its
    timeout in the table. *)
Definition timers_paired (s : State) : Prop :=
  Forall (fun t => t_handle t = N.succ (t_pollInterval t)) (timeouts s)
  ∧ Forall (fun i => Exists (fun t => t_pollInterval t = i_handle i)
                       (timeouts s)) (intervals s).

(** Every registered interval polls the task of a job in the history. *)
Definition polls_known_tasks (s : State) : Prop :=
  Forall (fun i => Exists (fun v => task_id v = Some (i_taskId i))
                     (videoHistory (view s))) (intervals s).

(** While [isPolling] is set some interval is registered. *)
Definition polling_has_interval (s : State) : Prop :=
  isPolling (view s) = true → intervals s ≠ [].

(** The events that settle a request. *)
Definition is_settle (e : Event) : bool :=
  match e with
  | Settle _ _ _ _ => true
  | _ => false
  end.

(** The events that can send a request. *)
Definition is_sender (e : Event) : bool :=
  match e with
  | Submit | ImageSubmit | TaskLookup | IntervalFires _ => true
  | _ => false
  end.

End Observe.

(** * Sample inputs *)

Module Samples.
Import Js Str Tracker.

(** A one-image request for [m] lasting [d], nothing else given. *)
Definition bare_request (m d : jsval) : Proxy.Body :=
  {| Proxy.images := JArr [JStr "https://example.com/cat.png"];
     Proxy.prompt := JUndefined; Proxy.model := m; Proxy.duration := d;
     Proxy.seed := JUndefined;
     Proxy.resolution := JUndefined;
     Proxy.movement_amplitude := JUndefined;
     Proxy.bgm := JUndefined; Proxy.payload := JUndefined;
     Proxy.callback_url := JUndefined |}.

(** The answer to a creation request: a pending job with task id [t]. *)
Definition pendingJob (t : string) : ViduVideoResponse :=
  {| task_id := Some t; v_state := Some "created"; status := "pending";
     created_at := "2025-01-01T00:00:00.000Z";
     updated_at := "2025-01-01T00:00:00.000Z"; v_prompt := "a cat";
     v_model := Some "viduq1"; v_style := Some "general";
     v_duration := Some 5; v_aspect_ratio := Some "16:9";
     v_resolution := Some "1080p"; v_movement_amplitude := Some "auto" |}.

Definition artifact_a : ViduTaskCreation :=
  {| id := "a"; url := "http://x/a.mp4"; cover_url := "http://x/a.jpg" |}.

(** [{state:"success", creations:[{id:"a", ...}]}] *)
Definition ready : ViduTaskCreationsResponse :=
  {| state := "success"; err_code := None; credits := 4; payload := None;
     creations := Some [artifact_a] |}.

(** [{state:"error", err_code:"E1"}] *)
Definition failedE1 : ViduTaskCreationsResponse :=
  {| state := "error"; err_code := Some "E1"; credits := 0;
     payload := None; creations := None |}.

(** [{state:"error"}] with no code. *)
Definition failedNoCode : ViduTaskCreationsResponse :=
  {| state := "error"; err_code := None; credits := 0;
     payload := None; creations := None |}.

(** A success with an artifact that also carries an error code. *)
Definition readyWithCode : ViduTaskCreationsResponse :=
  {| state := "success"; err_code := Some "E1"; credits := 4;
     payload := None; creations := Some [artifact_a] |}.

(** [{state:"processing"}] with a payload. *)
Definition inProgress : ViduTaskCreationsResponse :=
  {| state := "processing"; err_code := Some ""; credits := 4;
     payload := Some "job-42"; creations := Some [] |}.

Definition stamp : string := "2025-01-01T00:00:05.000Z".

(** The user types a prompt and sends it; the creation request (id 1)
    is answered with task "t1": interval 2 and timeout 3 are
    registered. *)
Definition first_job : list Event :=
  [TypePrompt "a cat"; Submit;
   Settle 1 (VideoData (pendingJob "t1")) stamp stamp].

(** Five seconds later the interval fires (request 4). *)
Definition first_poll : list Event :=
  first_job ++ [Elapse 5000; IntervalFires 2].

(** The first job with one status request (id 4) in flight. *)
Definition awaiting_poll : State :=
  match run first_poll initial with
  | Some s => s
  | None => initial
  end.

(** The user looks up "t9": request 1 is in flight. *)
Definition awaiting_lookup : State :=
  match run [TypeTaskId " t9 "; TaskLookup] initial with
  | Some s => s
  | None => initial
  end.

(** The first job accepted and being polled. *)
Definition polling_first : State :=
  match run first_job initial with
  | Some s => s
  | None => initial
  end.


(** The second job has been sent while the first is polled. *)
Definition second_job_sent : State :=
  match run [TypePrompt "a dog"; Submit] polling_first with
  | Some s => s
  | None => initial
  end.

(** The second job is accepted (interval 5, timeout 6) and polled. *)
Definition polling_second : State :=
  match run [Settle 4 (VideoData (pendingJob "t2")) stamp stamp]
          second_job_sent with
  | Some s => s
  | None => initial
  end.

(** The first job's status check has come back with the video. *)
Definition first_done : State :=
  match run [Settle 4 (CreationsData ready) stamp stamp] awaiting_poll with
  | Some s => s
  | None => initial
  end.

(** Ten minutes after the first job was accepted... *)
Definition first_overdue : State :=
  match run [Elapse 595000] first_done with
  | Some s => s
  | None => initial
  end.

(** ... its timeout fires. *)
Definition first_timed_out : State :=
  match run [TimeoutFires 3] first_overdue with
  | Some s => s
  | None => initial
  end.

(** The timeout of the first job, as registered. *)
Definition first_timeout : Timeout :=
  {| t_handle := 3; t_pollInterval := 2; t_taskCreationsResponse := None;
     t_due := 600000 |}.

(** The image form filled for model [m] and duration [d]. *)
Definition image_form (m : ImageModel) (d : jsnum) : View :=
  setImageUrl "https://example.com/cat.png"
    (setImageDuration d (setImageModel m initialView)).

End Samples.

(** * More sample inputs *)

Module MoreSamples.
Import Js Wire Routes Str Tracker Samples.

(** A request for "viduq1" that asks for 8 seconds at "360p" with seed 0
    and an empty prompt. *)
Definition odd_request : Proxy.Body :=
  {| Proxy.images := JArr [JStr "https://example.com/cat.png"];
     Proxy.prompt := JStr ""; Proxy.model := JStr "viduq1";
     Proxy.duration := JNum 8; Proxy.seed := JNum 0;
     Proxy.resolution := JStr "360p";
     Proxy.movement_amplitude := JUndefined; Proxy.bgm := JUndefined;
     Proxy.payload := JUndefined; Proxy.callback_url := JUndefined |}.

(** The remote answers 404 with a message of its own. *)
Definition remote404 : AxiosError :=
  {| e_response :=
       Some {| r_status := 404; r_statusText := "Not Found";
               r_data := JObj [("message", JStr "task not found")] |};
     e_code := Some "ERR_BAD_REQUEST";
     e_message := "Request failed with status code 404" |}.

(** A 404 without a body, as the browser gets it. *)
Definition bare404 : AxiosError :=
  {| e_response :=
       Some {| r_status := 404; r_statusText := "Not Found";
               r_data := JStr "" |};
     e_code := Some "ERR_BAD_REQUEST";
     e_message := "Request failed with status code 404" |}.

(** A 401 without a body. *)
Definition bare401 : AxiosError :=
  {| e_response :=
       Some {| r_status := 401; r_statusText := "Unauthorized";
               r_data := JUndefined |};
     e_code := Some "ERR_BAD_REQUEST";
     e_message := "Request failed with status code 401" |}.

(** The request to the remote was aborted on its 30 s timeout. *)
Definition aborted : AxiosError :=
  {| e_response := None; e_code := Some "ECONNABORTED";
     e_message := "timeout of 30000ms exceeded" |}.

(** The [error] fields the proxy's envelopes carry. *)
Definition envelope_errors : list string :=
  ["API key not configured"; "Validation Error"; "Vidu API Error";
   "Request Timeout"; "Server Error"].

(** What the lookup shows for an error answer of the creations route. *)
Definition lookup_messages : list string :=
  ["API key not configured"; "Vidu API Error";
   "Request timed out. Please try again."; "Server Error"].

(** The image form filled with a URL, a prompt and background music. *)
Definition image_form_filled : State :=
  with_view
    (setImagePrompt " pan left "
       (setImageBgm true
          (setImageUrl " https://example.com/cat.png "
             (setImageDuration (Int 8)
                (setImageModel vidu2_0 initialView))))) initial.

(** The text form with a prompt typed. *)
Definition text_form_filled : State :=
  with_view (setPrompt "  a cat  " initialView) initial.

(** A success that lists no creation yet. *)
Definition emptySuccess : ViduTaskCreationsResponse :=
  {| state := "success"; err_code := None; credits := 0; payload := None;
     creations := Some [] |}.

(** The first job's creation request (id 1) is in flight. *)
Definition awaiting_creation : State :=
  match run [TypePrompt "a cat"; Submit] initial with
  | Some s => s
  | None => initial
  end.

(** A creation answer without a task id. *)
Definition anonymousJob : ViduVideoResponse :=
  {| task_id := None; v_state := Some "created"; status := "pending";
     created_at := "2025-01-01T00:00:00.000Z";
     updated_at := "2025-01-01T00:00:00.000Z"; v_prompt := "a cat";
     v_model := None; v_style := None; v_duration := None;
     v_aspect_ratio := None; v_resolution := None;
     v_movement_amplitude := None |}.


(** The image form with a readable file chosen. *)
Definition file_form : State :=
  with_view
    (setImageFile (Some {| dataUrl := Some "data:image/png;base64,AAAA" |})
       (setUploadMethod ByFile initialView)) initial.

(** The image form was sent twice while the file was being read: two
    reads (ids 1 and 2) are in flight. *)
Definition reading_twice : State :=
  match run [ImageSubmit; ImageSubmit] file_form with
  | Some s => s
  | None => initial
  end.

(** Both reads have ended: two creation requests (ids 3 and 4) are in
    flight. *)
Definition sent_twice : State :=
  match run [FileRead 1; FileRead 2] reading_twice with
  | Some s => s
  | None => initial
  end.

End MoreSamples.

(** * Properties *)

(** ** The proxy's defaulting rules *)

Module ProxyFacts.
Import Js Proxy Samples.

Section Forwarding.

Variable apiKey : option string.
Variable b : Body.
Variable rd : gmap string jsval.
Hypothesis forwarded : img2video apiKey b = Forward rd.

(** What is forwarded is [requestData], and the model is one of
    [validModels]. *)
Lemma forwarded_requestData :
  rd = requestData b
  ∧ includes_str validModels (effective_model b) = true.
Proof using forwarded.
  revert forwarded. unfold img2video.
  repeat case_match; try discriminate.
  intros [= <-]. split; [done|].
  by destruct (includes_str validModels (effective_model b)).
Qed.

Lemma forwarded_resolution :
  rd !! "resolution"
  = if truthy (finalResolution b) then Some (finalResolution b) else None.
Proof using forwarded.
  destruct forwarded_requestData as [-> _].
  unfold requestData, set_if.
  repeat case_match; by simplify_map_eq.
Qed.

Lemma forwarded_duration : rd !! "duration" = Some (finalDuration b).
Proof using forwarded.
  destruct forwarded_requestData as [-> _].
  unfold requestData, set_if.
  repeat case_match; by simplify_map_eq.
Qed.

End Forwarding.

Lemma strict_eq_str_spec v s : strict_eq_str v s = true ↔ v = JStr s.
Proof.
  destruct v; simpl; try (split; [discriminate|intros [=]]).
  rewrite String.eqb_eq. split; [by intros ->|by intros [= ->]].
Qed.

Lemma strict_eq_str_false v s : v ≠ JStr s → strict_eq_str v s = false.
Proof.
  intros Hne. destruct (strict_eq_str v s) eqn:E; [|done].
  by apply strict_eq_str_spec in E.
Qed.

(** C4. An img2video request that is forwarded without a resolution of
    its own (the field is absent, or falsy) carries a default one: for a
    model other than "viduq1", "360p" when the effective duration is the
    number 4 and "720p" when it is the number 8; for "viduq1", "1080p"
    whatever the duration. *)
Theorem img2video_default_resolution
    (apiKey : option string) (b : Body) (rd : gmap string jsval) :
  img2video apiKey b = Forward rd →
  truthy (resolution b) = false →
  (effective_model b ≠ JStr "viduq1" → finalDuration b = JNum 4 →
     rd !! "resolution" = Some (JStr "360p"))
  ∧ (effective_model b ≠ JStr "viduq1" → finalDuration b = JNum 8 →
     rd !! "resolution" = Some (JStr "720p"))
  ∧ (effective_model b = JStr "viduq1" →
     rd !! "resolution" = Some (JStr "1080p")).
Proof.
  intros Hfwd Hres.
  rewrite (forwarded_resolution _ _ _ Hfwd).
  unfold finalResolution. rewrite Hres.
  split; [|split].
  - intros Hm Hd. by rewrite (strict_eq_str_false _ _ Hm), Hd.
  - intros Hm Hd. by rewrite (strict_eq_str_false _ _ Hm), Hd.
  - intros Hm. by rewrite Hm.
Qed.

Lemma img2video_default_resolution_witness :
  requestData (bare_request (JStr "vidu2.0") (JNum 4)) !! "resolution"
    = Some (JStr "360p")
  ∧ requestData (bare_request (JStr "vidu1.5") (JNum 8)) !! "resolution"
    = Some (JStr "720p")
  ∧ requestData (bare_request JUndefined (JNum 5)) !! "resolution"
    = Some (JStr "1080p").
Proof.
  split; [|split].
  - apply (img2video_default_resolution (Some "key")
             (bare_request (JStr "vidu2.0") (JNum 4)));
      [reflexivity|reflexivity|discriminate|reflexivity].
  - apply (img2video_default_resolution (Some "key")
             (bare_request (JStr "vidu1.5") (JNum 8)));
      [reflexivity|reflexivity|discriminate|reflexivity].
  - apply (img2video_default_resolution (Some "key")
             (bare_request JUndefined (JNum 5)));
      [reflexivity|reflexivity|reflexivity].
Defined.

End ProxyFacts.

(** ** What the browser makes of the proxy's error answers *)

Module ReplyFacts.
Import Js Wire Routes ApiClient.

Lemma interceptor_relay_Fails extra e statusText message :
  assoc "detail" extra = JUndefined →
  interceptor (received (relay extra (Fails e)) statusText message)
  = toStr (get "error" (body (relay extra (Fails e))))
  ∧ In (interceptor (received (relay extra (Fails e)) statusText message))
      ["Vidu API Error"; "Request Timeout"; "Server Error"].
Proof.
  intros Hx. unfold interceptor, received, relay, onError.
  destruct (e_response e) as [r|]; simpl.
  - rewrite Hx. simpl. split; [done|]. by left.
  - destruct (match e_code e with
              | Some c => String.eqb c "ECONNABORTED"
              | None => false
              end); simpl; rewrite Hx; simpl.
    + split; [done|]. right; by left.
    + split; [done|]. right; right; by left.
Qed.

Lemma interceptor_notConfigured statusText message :
  interceptor (received notConfigured statusText message)
  = "API key not configured".
Proof. reflexivity. Qed.



End ReplyFacts.

(** ** The job tracker *)

Module TrackerFacts.
Import Js Wire ApiClient Observe Str Tracker Samples MoreSamples.
Import ReplyFacts.

(** *** Timers and requests in flight *)

Lemma find_filter_negb {A} (f : A → bool) (l : list A) :
  List.find f (List.filter (λ x, negb (f x)) l) = None.
Proof.
  induction l as [|x l IH]; simpl; [done|].
  destruct (f x) eqn:E; simpl; [done|]. by rewrite E.
Qed.

Lemma find_interval_clearInterval h s :
  find_interval h (clearInterval h s) = None.
Proof. apply find_filter_negb. Qed.

Lemma cons_neq {A} (x : A) (l : list A) : x :: l ≠ l.
Proof.
  intros H. apply (f_equal length) in H. simpl in H. lia.
Qed.

(** A settlement runs the continuation that awaits it. *)
Lemma step_Settle rid r created updated k s :
  find_inflight rid s = Some k →
  step (Settle rid r created updated) s
  = resume k created updated r (drop_inflight rid s).
Proof. intros H. simpl. by rewrite H. Qed.

(** [a || b]: the code when there is one, the fallback otherwise. *)
Lemma or_else_code c b : c ≠ "" → or_else (Some c) b = c.
Proof.
  intros Hc. unfold or_else, str_truthy.
  destruct (String.eqb_spec c ""); [done|done].
Qed.

Lemma or_else_fallback a b : opt_truthy a = false → or_else a b = b.
Proof.
  destruct a as [c|]; simpl; [|done]. by intros ->.
Qed.

(** C6. When a status check of a poll comes back with state "success"
    and at least one creation, the continuation runs, the interval is
    cleared and polling stops, the status shown is "completed" and the
    generated video is the first creation of the list. *)
Theorem poll_success_completes
    (s : State) (rid pollInterval : N)
    (response : ViduTaskCreationsResponse)
    (c : ViduTaskCreation) (cs : list ViduTaskCreation)
    (created updated : string) :
  find_inflight rid s = Some (AwaitPoll pollInterval) →
  state response = "success" →
  creations response = Some (c :: cs) →
  ∃ s', step (Settle rid (CreationsData response) created updated) s
        = Some s'
      ∧ taskCreationsResponse (view s') = Some response
      ∧ getCurrentStatus (view s') = "completed"
      ∧ getGeneratedVideo (view s') = Some c
      ∧ isPolling (view s') = false
      ∧ find_interval pollInterval s' = None.
Proof.
  intros Hk Hst Hcs.
  rewrite (step_Settle _ _ _ _ _ _ Hk). simpl.
  unfold intervalCallback_resume. rewrite Hst, Hcs. simpl.
  eexists; split; [reflexivity|].
  unfold getCurrentStatus, getGeneratedVideo; simpl.
  rewrite Hst, Hcs; simpl.
  repeat split. apply find_filter_negb.
Qed.

Lemma poll_success_completes_witness :
  ∃ s', step (Settle 4 (CreationsData ready) stamp stamp) awaiting_poll
        = Some s'
      ∧ taskCreationsResponse (view s') = Some ready
      ∧ getCurrentStatus (view s') = "completed"
      ∧ getGeneratedVideo (view s') = Some artifact_a
      ∧ isPolling (view s') = false
      ∧ find_interval 2 s' = None.
Proof.
  apply (poll_success_completes awaiting_poll 4 2 ready artifact_a []
           stamp stamp); reflexivity.
Defined.

(** C7, as stated, fails: a status response with a non-empty [err_code]
    that is also a success with a creation takes the success branch; the
    status shown is "completed" and no message is set. *)
Lemma poll_success_with_code_not_failed :
  opt_truthy (err_code readyWithCode) = true
  ∧ ∃ s', step (Settle 4 (CreationsData readyWithCode) stamp stamp)
            awaiting_poll = Some s'
        ∧ getCurrentStatus (view s') = "completed"
        ∧ getCurrentStatus (view s') ≠ "failed"
        ∧ error (view s') = None.
Proof.
  split; [reflexivity|].
  eexists; split; [vm_compute; reflexivity|].
  vm_compute. repeat split. discriminate.
Qed.

(** C7, amended. When a status check of a poll comes back with state
    "error", or with a non-empty [err_code], and is not a success with
    creations, the interval is cleared and polling stops, the status
    shown is "failed", and the message shown is the error code when there
    is a non-empty one and "Video generation failed" otherwise. *)
Theorem poll_error_fails
    (s : State) (rid pollInterval : N)
    (response : ViduTaskCreationsResponse) (created updated : string) :
  find_inflight rid s = Some (AwaitPoll pollInterval) →
  state response = "error" ∨ opt_truthy (err_code response) = true →
  ¬ (state response = "success"
     ∧ has_creations (creations response) = true) →
  ∃ s', step (Settle rid (CreationsData response) created updated) s
        = Some s'
      ∧ getCurrentStatus (view s') = "failed"
      ∧ isPolling (view s') = false
      ∧ find_interval pollInterval s' = None
      ∧ (∀ c, err_code response = Some c → c ≠ "" →
           surfaced (view s') = Some c)
      ∧ (opt_truthy (err_code response) = false →
           surfaced (view s') = Some "Video generation failed").
Proof.
  intros Hk Herr Hnot.
  rewrite (step_Settle _ _ _ _ _ _ Hk). simpl.
  unfold intervalCallback_resume.
  assert (String.eqb (state response) "success"
          && has_creations (creations response) = false) as Hs.
  { apply not_true_is_false. intros [H1 H2]%andb_true_iff.
    apply Hnot. by apply String.eqb_eq in H1. }
  assert (String.eqb (state response) "error"
          || opt_truthy (err_code response) = true) as He.
  { destruct Herr as [->| ->]; [done|]. apply orb_true_r. }
  rewrite Hs, He.
  eexists; split; [reflexivity|].
  unfold getCurrentStatus, surfaced; simpl. rewrite Hs, He.
  repeat split.
  - apply find_filter_negb.
  - intros c Hc Hne. rewrite Hc, (or_else_code _ _ Hne).
    unfold str_truthy. by destruct (String.eqb_spec c "").
  - intros Hno. by rewrite (or_else_fallback _ _ Hno).
Qed.

Lemma poll_error_fails_witness :
  (∃ s', step (Settle 4 (CreationsData failedE1) stamp stamp) awaiting_poll
         = Some s'
       ∧ getCurrentStatus (view s') = "failed"
       ∧ surfaced (view s') = Some "E1")
  ∧ (∃ s', step (Settle 4 (CreationsData failedNoCode) stamp stamp)
             awaiting_poll = Some s'
       ∧ getCurrentStatus (view s') = "failed"
       ∧ surfaced (view s') = Some "Video generation failed").
Proof.
  split.
  - destruct (poll_error_fails awaiting_poll 4 2 failedE1 stamp stamp)
      as (s' & Hs & Hst & _ & _ & Hcode & _);
      [reflexivity|left; reflexivity|intros [H _]; discriminate H|].
    exists s'. split; [exact Hs|]. split; [exact Hst|].
    apply Hcode; [reflexivity|discriminate].
  - destruct (poll_error_fails awaiting_poll 4 2 failedNoCode stamp stamp)
      as (s' & Hs & Hst & _ & _ & _ & Hnone);
      [reflexivity|left; reflexivity|intros [H _]; discriminate H|].
    exists s'. split; [exact Hs|]. split; [exact Hst|].
    apply Hnone. reflexivity.
Defined.

(** *** Task lookup *)

Lemma same_task_mockResponse taskId response created updated :
  same_task taskId (mockResponse taskId response created updated) = true.
Proof. unfold same_task; simpl. apply String.eqb_refl. Qed.


(** C10. The job that a successful lookup of [taskId] puts in
    [currentTaskResponse] is [mockResponse]: its status is "completed"
    for the remote state "success", "failed" for "error" and "processing"
    for any other state; its prompt is the payload of the response when
    that is non-empty and "Retrieved from task ID" otherwise. *)
Theorem lookup_mock_job
    (s : State) (rid : N) (taskId : string)
    (response : ViduTaskCreationsResponse) (created updated : string) :
  find_inflight rid s = Some (AwaitLookup taskId) →
  ∃ s' job,
    step (Settle rid (CreationsData response) created updated) s = Some s'
    ∧ currentTaskResponse (view s') = Some job
    ∧ task_id job = Some taskId
    ∧ (state response = "success" → status job = "completed")
    ∧ (state response = "error" → status job = "failed")
    ∧ (state response ≠ "success" → state response ≠ "error" →
         status job = "processing")
    ∧ (∀ p, payload response = Some p → p ≠ "" → v_prompt job = p)
    ∧ (opt_truthy (payload response) = false →
         v_prompt job = "Retrieved from task ID").
Proof.
  intros Hk. rewrite (step_Settle _ _ _ _ _ _ Hk). simpl.
  eexists _, _. split; [reflexivity|]. split; [reflexivity|].
  simpl. unfold lookupStatus.
  repeat split.
  - by intros ->.
  - by intros ->.
  - intros H1 H2.
    destruct (String.eqb_spec (state response) "success"); [done|].
    by destruct (String.eqb_spec (state response) "error").
  - intros p -> Hp. by apply or_else_code.
  - apply or_else_fallback.
Qed.

Lemma lookup_mock_job_witness :
  ∃ s' job,
    step (Settle 1 (CreationsData inProgress) stamp stamp) awaiting_lookup
    = Some s'
    ∧ currentTaskResponse (view s') = Some job
    ∧ task_id job = Some "t9"
    ∧ status job = "processing"
    ∧ v_prompt job = "job-42".
Proof.
  destruct (lookup_mock_job awaiting_lookup 1 "t9" inProgress stamp stamp)
    as (s' & job & Hs & Hc & Ht & _ & _ & Hp & Hpay & _); [reflexivity|].
  exists s', job. split; [exact Hs|]. split; [exact Hc|].
  split; [exact Ht|]. split.
  - apply Hp; discriminate.
  - apply (Hpay "job-42"); [reflexivity|discriminate].
Defined.








(** *** Submitting while a job is polled *)

Lemma str_truthy_false s : str_truthy s = false ↔ s = "".
Proof.
  unfold str_truthy. destruct (String.eqb_spec s ""); simpl; split; try done.
Qed.

(** C1, as stated, fails: with the first job being polled (its interval
    registered, [isPolling] set), a second submission is not a no-op: a
    creation request is sent, and once it is answered the history has two
    entries and both jobs have an interval registered. *)
Lemma submit_while_polling_accepted :
  isPolling (view polling_first) = true
  ∧ List.map i_taskId (intervals polling_first) = ["t1"]
  ∧ length (videoHistory (view polling_first)) = 1%nat
  ∧ handleSubmit polling_first ≠ polling_first
  ∧ length (requests (handleSubmit polling_first))
    = S (length (requests polling_first))
  ∧ ∃ s', run [Submit; Settle 4 (VideoData (pendingJob "t2")) stamp stamp]
            polling_first = Some s'
        ∧ length (videoHistory (view s')) = 2%nat
        ∧ List.map i_taskId (intervals s') = ["t2"; "t1"].
Proof.
  split; [vm_compute; reflexivity|].
  split; [vm_compute; reflexivity|].
  split; [vm_compute; reflexivity|].
  split.
  { intros H. apply (f_equal (λ s, length (requests s))) in H.
    vm_compute in H. discriminate. }
  split; [vm_compute; reflexivity|].
  eexists; split; [vm_compute; reflexivity|].
  split; vm_compute; reflexivity.
Qed.

(** C1, amended. A text-to-video submission is a no-op exactly when the
    trimmed prompt is empty or an earlier text-to-video submission still
    awaits its answer ([isGenerating]); otherwise, also while an earlier
    job is polled, the creation request is sent, the intervals and
    timeouts registered for earlier jobs stay as they are, and a
    successful answer puts the new job in front of the history. *)
Theorem handleSubmit_noop_iff (s : State) :
  (handleSubmit s = s
   ↔ trim (prompt (view s)) = "" ∨ isGenerating (view s) = true)
  ∧ (trim (prompt (view s)) ≠ "" → isGenerating (view s) = false →
       requests (handleSubmit s)
       = PostText2Video (textRequest (view s)) :: requests s
       ∧ intervals (handleSubmit s) = intervals s
       ∧ timeouts (handleSubmit s) = timeouts s
       ∧ ∀ response created updated, ∃ s',
           run [Submit;
                Settle (next_handle s) (VideoData response) created updated]
             s = Some s'
           ∧ videoHistory (view s') = response :: videoHistory (view s)).
Proof.
  unfold handleSubmit.
  destruct (str_truthy (trim (prompt (view s)))) eqn:Hp;
    destruct (isGenerating (view s)) eqn:Hg; simpl.
  - split; [split; [by right|done]|done].
  - split.
    + split.
      * intros H. apply (f_equal requests) in H. simpl in H.
        by apply cons_neq in H.
      * intros [H|H]; [|done]. apply str_truthy_false in H. congruence.
    + intros _ _. repeat split.
      intros response created updated.
      unfold handleSubmit, find_inflight. rewrite Hp, Hg. simpl.
      rewrite N.eqb_refl. simpl.
      eexists; split; [reflexivity|].
      unfold startPolling.
      destruct (task_id response) as [t|]; [|done].
      by destruct (str_truthy t).
  - apply str_truthy_false in Hp.
    split; [split; [by left|done]|done].
  - apply str_truthy_false in Hp.
    split; [split; [by left|done]|done].
Qed.

Lemma handleSubmit_noop_iff_witness :
  requests (handleSubmit polling_first)
  = PostText2Video (textRequest (view polling_first))
      :: requests polling_first
  ∧ intervals (handleSubmit polling_first) = intervals polling_first
  ∧ timeouts (handleSubmit polling_first) = timeouts polling_first.
Proof.
  destruct (proj2 (handleSubmit_noop_iff polling_first)) as (Hr & Hi & Ht & _);
    [vm_compute; discriminate|reflexivity|].
  split; [exact Hr|]. split; [exact Hi|exact Ht].
Defined.

(** *** Supersession *)

Lemma registered_clearInterval_ne h p s :
  h ≠ p → registered h (clearInterval p s) = registered h s.
Proof.
  intros Hne. unfold registered, clearInterval; simpl.
  induction (intervals s) as [|i l IH]; simpl; [done|].
  destruct (has_handle p i) eqn:Ep; simpl; rewrite IH; [|done].
  unfold has_handle in *. apply N.eqb_eq in Ep.
  destruct (N.eqb_spec (i_handle i) h); [congruence|done].
Qed.

Lemma registered_clearInterval h s : registered h (clearInterval h s) = false.
Proof.
  unfold registered, clearInterval; simpl.
  induction (intervals s) as [|i l IH]; simpl; [done|].
  destruct (has_handle h i) eqn:E; simpl; [done|]. by rewrite E.
Qed.

Lemma registered_reschedule h p s :
  registered h (reschedule p s) = registered h s.
Proof.
  unfold registered, reschedule; simpl.
  induction (intervals s) as [|i l IH]; simpl; [done|].
  rewrite IH. f_equal. unfold has_handle.
  by destruct (i_handle i =? p)%N.
Qed.

Lemma not_registered_step_IntervalFires h s :
  registered h s = false → step (IntervalFires h) s = None.
Proof.
  unfold registered. intros H. simpl. unfold find_interval.
  destruct (List.find (has_handle h) (intervals s)) as [i|] eqn:E; [|done].
  apply List.find_some in E as [Hin Hh].
  assert (existsb (has_handle h) (intervals s) = true) as Ht
    by (apply existsb_exists; eauto).
  congruence.
Qed.

(** Starting to poll registers, never deregisters. *)
Lemma registered_startPolling h response snapshot s :
  registered h s = true →
  registered h (startPolling response snapshot s) = true.
Proof.
  intros H. unfold startPolling.
  destruct (task_id response) as [t|]; [|done].
  destruct (str_truthy t); [|done].
  unfold registered; simpl. rewrite orb_true_iff. by right.
Qed.

(** C2, as stated, fails: when the second job is sent the interval and
    the timeout of the first are still registered, and stay so once the
    second job is polled; the first job's interval then fires, its status
    check comes back failed, and that clears [isPolling] and sets the
    error while the second job is the current one. *)
Lemma stale_poll_mutates_state :
  registered 2 second_job_sent = true
  ∧ List.map t_pollInterval (timeouts second_job_sent) = [2%N]
  ∧ List.map i_taskId (intervals polling_second) = ["t2"; "t1"]
  ∧ currentTaskResponse (view polling_second) = Some (pendingJob "t2")
  ∧ isPolling (view polling_second) = true
  ∧ error (view polling_second) = None
  ∧ ∃ s', run [Elapse 5000; IntervalFires 2;
               Settle 7 (CreationsData failedE1) stamp stamp]
            polling_second = Some s'
        ∧ currentTaskResponse (view s') = Some (pendingJob "t2")
        ∧ isPolling (view s') = false
        ∧ error (view s') = Some "E1"
        ∧ taskCreationsResponse (view s') = Some failedE1.
Proof.
  do 6 (split; [vm_compute; reflexivity|]).
  eexists; split; [vm_compute; reflexivity|].
  repeat split.
Qed.

Lemma registered_render h f s : registered h (render f s) = registered h s.
Proof. reflexivity. Qed.

Lemma registered_fetch h req k s :
  registered h (fetch req k s) = registered h s.
Proof. reflexivity. Qed.

Lemma registered_drop_inflight h rid s :
  registered h (drop_inflight rid s) = registered h s.
Proof. reflexivity. Qed.

Lemma registered_drop_timeout h th s :
  registered h (drop_timeout th s) = registered h s.
Proof. reflexivity. Qed.

Lemma registered_generate_resume h fallback done snapshot r s s' :
  generate_resume fallback done snapshot r s = Some s' →
  registered h s = true → registered h s' = true.
Proof.
  destruct r as [e|response|response]; simpl; [| |done]; intros [= <-] H.
  - by rewrite !registered_render.
  - rewrite registered_render. apply registered_startPolling.
    by rewrite !registered_render.
Qed.

Lemma registered_intervalCallback_resume h p r s s' :
  h ≠ p → intervalCallback_resume p r s = Some s' →
  registered h s' = registered h s.
Proof.
  intros Hne. unfold intervalCallback_resume.
  destruct r as [e|response|response]; [|done|].
  - intros [= <-].
    by rewrite !registered_render, registered_clearInterval_ne.
  - repeat case_match; intros [= <-];
      by rewrite !registered_render, ?registered_clearInterval_ne.
Qed.

Lemma registered_handleTaskLookup_resume h taskId created updated r s s' :
  handleTaskLookup_resume taskId created updated r s = Some s' →
  registered h s' = registered h s.
Proof. destruct r; simpl; [|done|]; by intros [= <-]. Qed.

Lemma registered_timeoutCallback h t s :
  h ≠ t_pollInterval t →
  registered h (timeoutCallback t s) = registered h s.
Proof.
  intros Hne. unfold timeoutCallback.
  case_match; by rewrite !registered_render, registered_clearInterval_ne.
Qed.

(** C2, amended. The step in which a text or image job or a lookup
    sends its request clears the error, the current task response and
    the creations response and clears the polling flag; neither that
    step nor any other step of a submission or lookup deregisters an
    interval or a timeout. A registered interval is deregistered only
    when a status check of its own settles, or when a timeout that
    closes over it fires. *)
Theorem new_job_keeps_timers (e : Event) (s s' : State) :
  step e s = Some s' →
  (e = Submit ∨ e = ImageSubmit ∨ e = TaskLookup
   ∨ (∃ rid, e = FileRead rid) →
     intervals s' = intervals s ∧ timeouts s' = timeouts s)
  ∧ (e = Submit ∨ e = ImageSubmit ∨ e = TaskLookup
     ∨ (∃ rid, e = FileRead rid) →
     requests s' ≠ requests s →
     error (view s') = None
     ∧ currentTaskResponse (view s') = None
     ∧ taskCreationsResponse (view s') = None
     ∧ isPolling (view s') = false)
  ∧ (∀ h, registered h s = true → registered h s' = false →
       (∃ rid r created updated,
           e = Settle rid r created updated
           ∧ find_inflight rid s = Some (AwaitPoll h))
       ∨ (∃ th t,
           e = TimeoutFires th
           ∧ find_timeout th s = Some t ∧ t_pollInterval t = h)).
Proof.
  intros Hstep. split; [|split].
  - intros [->|[->|[->|[rid ->]]]]; simpl in Hstep.
    + injection Hstep as <-. unfold handleSubmit. by case_match.
    + injection Hstep as <-. unfold handleImageSubmit. by repeat case_match.
    + injection Hstep as <-. unfold handleTaskLookup. by case_match.
    + destruct (find_inflight rid s) as [[| | | |f v]|]; try done.
      injection Hstep as <-. unfold handleImageSubmit_read. by case_match.
  - intros [->|[->|[->|[rid ->]]]] Hsent; simpl in Hstep.
    + injection Hstep as <-. revert Hsent. unfold handleSubmit.
      by case_match.
    + injection Hstep as <-. revert Hsent. unfold handleImageSubmit.
      by repeat case_match.
    + injection Hstep as <-. revert Hsent. unfold handleTaskLookup.
      by case_match.
    + destruct (find_inflight rid s) as [[| | | |f v]|]; try done.
      injection Hstep as <-. revert Hsent. unfold handleImageSubmit_read.
      by case_match.
  - intros h Hin Hout.
    destruct e; simpl in Hstep;
      try (injection Hstep as <-; exfalso; revert Hout;
           unfold handleSubmit, handleImageSubmit, handleTaskLookup,
             handleRetry;
           repeat case_match; rewrite ?registered_fetch, ?registered_render;
           unfold registered in *; simpl; congruence).
    + (* a request settles *)
      destruct (find_inflight rid s) as [k|] eqn:Hk; [|done].
      destruct k as [snap|snap|p|taskId|f v]; simpl in Hstep; [| | | |done].
      * apply (registered_generate_resume h) in Hstep; [congruence|done].
      * apply (registered_generate_resume h) in Hstep; [congruence|done].
      * destruct (decide (h = p)) as [->|Hne].
        { left. by exists rid, r, created, updated. }
        apply (registered_intervalCallback_resume h) in Hstep; [|done].
        rewrite registered_drop_inflight in Hstep. congruence.
      * apply (registered_handleTaskLookup_resume h) in Hstep.
        rewrite registered_drop_inflight in Hstep. congruence.
    + (* the read of a file ends *)
      destruct (find_inflight rid s) as [[| | | |f v]|]; try done.
      injection Hstep as <-. exfalso. revert Hout.
      unfold handleImageSubmit_read.
      case_match; unfold registered in *; simpl; congruence.
    + (* an interval fires *)
      destruct (find_interval h0 s) as [i|]; [|done].
      destruct (i_due i <=? now s)%N; [|done]. injection Hstep as <-.
      unfold intervalCallback in Hout.
      rewrite registered_fetch, registered_reschedule in Hout. congruence.
    + (* a timeout fires *)
      destruct (find_timeout h0 s) as [t|] eqn:Ht; [|done].
      destruct (t_due t <=? now s)%N; [|done]. injection Hstep as <-.
      destruct (decide (h = t_pollInterval t)) as [->|Hne].
      { right. by exists h0, t. }
      rewrite registered_timeoutCallback, registered_drop_timeout in Hout
        by done.
      congruence.
Qed.

Lemma new_job_keeps_timers_witness :
  (intervals (handleSubmit polling_first) = intervals polling_first
   ∧ timeouts (handleSubmit polling_first) = timeouts polling_first)
  ∧ (error (view (handleSubmit polling_first)) = None
     ∧ currentTaskResponse (view (handleSubmit polling_first)) = None
     ∧ taskCreationsResponse (view (handleSubmit polling_first)) = None
     ∧ isPolling (view (handleSubmit polling_first)) = false)
  ∧ ((∃ rid r created updated,
        Settle 4 (CreationsData ready) stamp stamp
        = Settle rid r created updated
        ∧ find_inflight rid awaiting_poll = Some (AwaitPoll 2))
     ∨ (∃ th t,
        Settle 4 (CreationsData ready) stamp stamp = TimeoutFires th
        ∧ find_timeout th awaiting_poll = Some t ∧ t_pollInterval t = 2%N)).
Proof.
  split; [|split].
  - apply (new_job_keeps_timers Submit polling_first
             (handleSubmit polling_first)); [reflexivity|left; reflexivity].
  - apply (new_job_keeps_timers Submit polling_first
             (handleSubmit polling_first));
      [reflexivity|left; reflexivity|].
    intros H. apply (f_equal length) in H. vm_compute in H. discriminate H.
  - apply (new_job_keeps_timers (Settle 4 (CreationsData ready) stamp stamp)
             awaiting_poll first_done); vm_compute; reflexivity.
Defined.

(** *** The timeout *)

Ltac unfold_handlers :=
  unfold handleSubmit, handleImageSubmit, handleTaskLookup, handleRetry,
    resume, handleSubmit_resume, handleImageSubmit_resume, generate_resume,
    intervalCallback_resume, handleTaskLookup_resume, startPolling,
    pollTaskCreations, intervalCallback, timeoutCallback, fetch,
    clearInterval, reschedule, drop_timeout, drop_inflight, render,
    handleImageSubmit_read, submitImage, suspend in *.

(** Case analysis on one turn of the event loop: every way [step e s]
    can be [Some s'], with [s'] spelled out. *)
Ltac step_cases H :=
  match type of H with
  | step ?e _ = Some _ =>
      destruct e; simpl in H; unfold_handlers;
      repeat (case_match; try discriminate);
      simplify_eq; simpl in *
  end.

Lemma next_handle_step e s s' :
  step e s = Some s' → (next_handle s ≤ next_handle s')%N.
Proof. intros H. step_cases H; lia. Qed.

(** A timeout leaves the table only by firing. *)
Lemma timeouts_step e s s' t :
  step e s = Some s' → In t (timeouts s) →
  In t (timeouts s') ∨ e = TimeoutFires (t_handle t).
Proof.
  intros H Hin. step_cases H; try (left; simpl; tauto).
  all: destruct (N.eqb_spec (t_handle t) h) as [->|Hne]; [by right|left];
    apply filter_In; (split; [done|]); by apply negb_true_iff, N.eqb_neq.
Qed.

Lemma handles_issued_initial : handles_issued initial.
Proof. constructor. Qed.

Lemma handles_issued_step e s s' :
  step e s = Some s' → handles_issued s → handles_issued s'.
Proof.
  unfold handles_issued. rewrite !List.Forall_forall.
  intros H Hs. step_cases H; intros tm Hin;
    repeat match goal with
    | H : In _ (List.filter _ _) |- _ => apply filter_In in H as [H _]
    | H : _ ∨ _ |- _ => destruct H as [<-|H]
    end; simpl; try (specialize (Hs _ Hin)); lia.
Qed.

Lemma handles_issued_reachable s : reachable s → handles_issued s.
Proof.
  intros [es Hrun]. revert Hrun.
  generalize handles_issued_initial. generalize initial as s0.
  induction es as [|e es IH]; simpl; intros s0 H0.
  - by intros [= <-].
  - destruct (step e s0) as [s1|] eqn:E; [|done].
    apply IH. by eapply handles_issued_step.
Qed.

Lemma existsb_filter_false {A} (f g : A → bool) l :
  existsb f l = false → existsb f (List.filter g l) = false.
Proof.
  induction l as [|x l IH]; simpl; [done|].
  intros [Hx Hl]%orb_false_iff. destruct (g x); simpl; [|auto].
  by rewrite Hx, IH.
Qed.

Lemma existsb_reschedule h p l :
  existsb (has_handle h)
    (List.map (λ i, if has_handle p i
                    then mkInterval (i_handle i) (i_taskId i)
                           (i_due i + POLL_MS)
                    else i) l)
  = existsb (has_handle h) l.
Proof.
  induction l as [|i l IH]; simpl; [done|].
  rewrite IH. f_equal. unfold has_handle.
  by destruct (i_handle i =? p)%N.
Qed.

(** A handle handed out earlier and not registered is never registered
    again: new intervals get new handles. *)
Lemma unregistered_step e s s' h :
  step e s = Some s' →
  (h < next_handle s)%N → registered h s = false →
  registered h s' = false.
Proof.
  unfold registered. intros H Hlt Hun.
  step_cases H;
    rewrite ?existsb_reschedule; try done;
    try (by apply existsb_filter_false).
  all: unfold has_handle at 1; simpl;
    destruct (N.eqb_spec (next_handle s) h); [lia|done].
Qed.

Lemma unregistered_run es s s' h :
  run es s = Some s' →
  (h < next_handle s)%N → registered h s = false →
  registered h s' = false.
Proof.
  revert s. induction es as [|e es IH]; simpl; intros s.
  - by intros [= <-].
  - destruct (step e s) as [s1|] eqn:E; [|done].
    intros Hrun Hlt Hun. apply (IH s1 Hrun).
    + pose proof (next_handle_step _ _ _ E). lia.
    + by eapply unregistered_step.
Qed.

(** C3, as stated, fails: the first job's status check comes back with
    the video, the status shown is "completed", and the timeout is still
    in the timer table; ten minutes after the job was accepted it fires
    and sets the timeout message, although a terminal state was
    seen. *)
Lemma timeout_fires_after_success :
  getCurrentStatus (view first_done) = "completed"
  ∧ timeouts first_done = [first_timeout]
  ∧ step (TimeoutFires 3) first_overdue = Some first_timed_out
  ∧ taskCreationsResponse (view first_timed_out) = Some ready
  ∧ error (view first_timed_out)
    = Some "Video generation timed out. Please try again.".
Proof.
  do 4 (split; [vm_compute; reflexivity|]). vm_compute; reflexivity.
Qed.

(** C3, amended. In every state the component can reach: a poll
    registers its timeout 600000 ms ahead; a timeout leaves the timer
    table only by firing, so a status check that ends the poll does not
    cancel it; it fires no earlier than it is due, and when it fires
    polling stops and the interval it closes over is deregistered for
    good, so that interval sends no further status request. *)
Theorem timeout_not_cancelled (s : State) :
  reachable s →
  (∀ taskId snapshot,
     timeouts (pollTaskCreations taskId snapshot s)
     = mkTimeout (N.succ (next_handle s)) (next_handle s) snapshot
         (now s + 600000) :: timeouts s)
  ∧ (∀ e s' t, step e s = Some s' → In t (timeouts s) →
       In t (timeouts s') ∨ e = TimeoutFires (t_handle t))
  ∧ (∀ th s', step (TimeoutFires th) s = Some s' →
       ∃ t, find_timeout th s = Some t
          ∧ (t_due t ≤ now s)%N
          ∧ isPolling (view s') = false
          ∧ ∀ es s'', run es s' = Some s'' →
              step (IntervalFires (t_pollInterval t)) s'' = None).
Proof.
  intros Hreach. split; [done|]. split.
  { intros e s' t. apply timeouts_step. }
  intros th s' Hstep. simpl in Hstep.
  destruct (find_timeout th s) as [t|] eqn:Ht; [|done].
  destruct (N.leb_spec (t_due t) (now s)) as [Hdue|]; [|done].
  injection Hstep as <-.
  exists t. split; [done|]. split; [done|].
  assert (registered (t_pollInterval t)
            (timeoutCallback t (drop_timeout th s)) = false
          ∧ next_handle (timeoutCallback t (drop_timeout th s))
            = next_handle s
          ∧ isPolling (view (timeoutCallback t (drop_timeout th s)))
            = false) as (Hun & Hnext & Hpoll).
  { unfold timeoutCallback. case_match;
      rewrite ?registered_render, registered_clearInterval; done. }
  split; [done|].
  intros es s'' Hrun. apply not_registered_step_IntervalFires.
  apply (unregistered_run es _ _ _ Hrun); [|done].
  rewrite Hnext.
  apply handles_issued_reachable in Hreach.
  unfold handles_issued in Hreach. rewrite List.Forall_forall in Hreach.
  apply Hreach. unfold find_timeout in Ht.
  by apply List.find_some in Ht as [? _].
Qed.

Lemma timeout_not_cancelled_witness :
  (In first_timeout (timeouts first_done)
   ∨ Settle 4 (CreationsData ready) stamp stamp
     = TimeoutFires (t_handle first_timeout))
  ∧ ∃ t, find_timeout 3 first_overdue = Some t
       ∧ (t_due t ≤ now first_overdue)%N
       ∧ isPolling (view first_timed_out) = false
       ∧ ∀ es s'', run es first_timed_out = Some s'' →
           step (IntervalFires (t_pollInterval t)) s'' = None.
Proof.
  split.
  - refine (proj1 (proj2 (timeout_not_cancelled awaiting_poll _))
              (Settle 4 (CreationsData ready) stamp stamp) first_done
              first_timeout _ _).
    + exists first_poll. vm_compute; reflexivity.
    + vm_compute; reflexivity.
    + vm_compute. left; reflexivity.
  - refine (proj2 (proj2 (timeout_not_cancelled first_overdue _))
              3%N first_timed_out _).
    + exists (first_poll
              ++ [Settle 4 (CreationsData ready) stamp stamp;
                  Elapse 595000])%list.
      vm_compute; reflexivity.
    + vm_compute; reflexivity.
Defined.

End TrackerFacts.

(** ** Duration and resolution across client and proxy *)

Module Defaults.
Import Js Str Samples ProxyFacts.

Lemma pretty_N_go_length x s :
  (String.length s ≤ String.length (pretty_N_go x s))%nat.
Proof.
  revert s. induction (N.lt_wf_0 x) as [x _ IH]; intros s.
  destruct (decide (0 < x)%N) as [Hx|Hx].
  - rewrite pretty_N_go_step by done.
    etrans; [|apply IH; by apply N.div_lt]. simpl. lia.
  - assert (x = 0%N) as -> by lia. by rewrite pretty_N_go_0.
Qed.

Lemma pretty_N_nonempty (x : N) : pretty x ≠ "".
Proof.
  unfold pretty, pretty_N. case_decide; [done|].
  rewrite pretty_N_go_step by lia.
  intros Hempty.
  pose proof (pretty_N_go_length (x `div` 10)
    (String (pretty_N_char (x `mod` 10)) "")) as Hlen.
  rewrite Hempty in Hlen. simpl in Hlen. lia.
Qed.

(** A number never prints as the empty string. *)
Lemma num_toString_nonempty n : Tracker.num_toString n ≠ "".
Proof.
  destruct n as [z|]; simpl; [|done].
  destruct z as [|p|p]; unfold pretty, pretty_Z; [done| |done].
  apply (pretty_N_nonempty (Npos p)).
Qed.

(** C5. With no duration given, the effective duration is 5 for the
    model "viduq1" and 4 for "vidu2.0" and "vidu1.5": in the proxy, as
    the duration forwarded for a request without the field; in the
    browser, as the duration sent when the selected one is falsy. *)
Theorem default_duration_by_model :
  (∀ apiKey b rd,
     Proxy.img2video apiKey b = Proxy.Forward rd →
     Proxy.duration b = JUndefined →
     (Proxy.effective_model b = JStr "viduq1" →
        rd !! "duration" = Some (JNum 5))
     ∧ (Proxy.effective_model b = JStr "vidu2.0"
        ∨ Proxy.effective_model b = JStr "vidu1.5" →
        rd !! "duration" = Some (JNum 4)))
  ∧ (∀ v,
     Tracker.num_truthy (Tracker.imageDuration v) = false →
     (Tracker.imageModel v = Tracker.viduq1 →
        Tracker.finalDuration v = Tracker.Int 5)
     ∧ (Tracker.imageModel v = Tracker.vidu2_0
        ∨ Tracker.imageModel v = Tracker.vidu1_5 →
        Tracker.finalDuration v = Tracker.Int 4)).
Proof.
  split.
  - intros apiKey b rd Hfwd Hd.
    rewrite (forwarded_duration _ _ _ Hfwd).
    unfold Proxy.finalDuration. rewrite Hd. simpl.
    split; [by intros ->|by intros [-> | ->]].
  - intros v Hd. unfold Tracker.finalDuration. rewrite Hd.
    split; [by intros ->|by intros [-> | ->]].
Qed.

Lemma default_duration_by_model_witness :
  (Proxy.requestData (bare_request JUndefined JUndefined) !! "duration"
     = Some (JNum 5)
   ∧ Proxy.requestData (bare_request (JStr "vidu2.0") JUndefined)
       !! "duration" = Some (JNum 4))
  ∧ (Tracker.finalDuration (image_form Tracker.viduq1 Tracker.NaN)
     = Tracker.Int 5
     ∧ Tracker.finalDuration (image_form Tracker.vidu1_5 (Tracker.Int 0))
       = Tracker.Int 4).
Proof.
  destruct default_duration_by_model as [Hproxy Hclient].
  split; split.
  - apply (Hproxy (Some "key") (bare_request JUndefined JUndefined));
      reflexivity.
  - apply (Hproxy (Some "key") (bare_request (JStr "vidu2.0") JUndefined));
      [reflexivity|reflexivity|left; reflexivity].
  - apply (Hclient (image_form Tracker.viduq1 Tracker.NaN)); reflexivity.
  - apply (Hclient (image_form Tracker.vidu1_5 (Tracker.Int 0)));
      [reflexivity|right; reflexivity].
Defined.

(** C9, as stated, fails: a request for "vidu2.0" whose duration is the
    empty string and that has no resolution is forwarded with duration 4
    and resolution "360p". *)
Lemma empty_duration_gets_resolution :
  Proxy.img2video (Some "key") (bare_request (JStr "vidu2.0") (JStr ""))
  = Proxy.Forward
      (Proxy.requestData (bare_request (JStr "vidu2.0") (JStr "")))
  ∧ Proxy.requestData (bare_request (JStr "vidu2.0") (JStr ""))
      !! "resolution" = Some (JStr "360p")
  ∧ Proxy.requestData (bare_request (JStr "vidu2.0") (JStr ""))
      !! "duration" = Some (JNum 4).
Proof. repeat split. Qed.

(** C9, amended. The browser sends the duration as a non-empty string
    and no resolution. The proxy forwards a request whose duration is a
    non-empty string, whose resolution is absent (or falsy) and whose
    model is not "viduq1" without a resolution field. So no image job
    sent from the browser for "vidu2.0" or "vidu1.5" is forwarded with a
    resolution. *)
Theorem string_duration_no_resolution :
  (∀ img v, ∃ d,
     Proxy.duration (Tracker.toBody (Tracker.imageRequest img v)) = JStr d
     ∧ d ≠ ""
     ∧ Proxy.resolution (Tracker.toBody (Tracker.imageRequest img v))
       = JUndefined)
  ∧ (∀ apiKey b rd d,
     Proxy.img2video apiKey b = Proxy.Forward rd →
     Proxy.duration b = JStr d → d ≠ "" →
     truthy (Proxy.resolution b) = false →
     Proxy.effective_model b ≠ JStr "viduq1" →
     rd !! "resolution" = None)
  ∧ (∀ apiKey img v rd,
     Tracker.imageModel v ≠ Tracker.viduq1 →
     Proxy.img2video apiKey (Tracker.toBody (Tracker.imageRequest img v))
     = Proxy.Forward rd →
     rd !! "resolution" = None).
Proof.
  assert (∀ apiKey b rd d,
     Proxy.img2video apiKey b = Proxy.Forward rd →
     Proxy.duration b = JStr d → d ≠ "" →
     truthy (Proxy.resolution b) = false →
     Proxy.effective_model b ≠ JStr "viduq1" →
     rd !! "resolution" = None) as Hproxy.
  { intros apiKey b rd d Hfwd Hd Hne Hres Hm.
    rewrite (forwarded_resolution _ _ _ Hfwd).
    unfold Proxy.finalResolution, Proxy.finalDuration.
    rewrite Hres, Hd, (strict_eq_str_false _ _ Hm). simpl.
    destruct (String.eqb_spec d ""); [done|]. simpl. by rewrite Hres. }
  split; [|split; [exact Hproxy|]].
  - intros img v. eexists. split; [reflexivity|].
    split; [apply num_toString_nonempty|reflexivity].
  - intros apiKey img v rd Hm Hfwd.
    apply (Hproxy apiKey _ rd
             (Tracker.num_toString (Tracker.finalDuration v)) Hfwd);
      [reflexivity|apply num_toString_nonempty|reflexivity|].
    unfold Proxy.effective_model; simpl.
    by destruct (Tracker.imageModel v).
Qed.

Lemma string_duration_no_resolution_witness :
  Proxy.requestData (bare_request (JStr "vidu2.0") (JStr "8"))
    !! "resolution" = None
  ∧ Proxy.requestData
      (Tracker.toBody
         (Tracker.imageRequest "https://example.com/cat.png"
            (image_form Tracker.vidu2_0 (Tracker.Int 8))))
      !! "resolution" = None.
Proof.
  destruct string_duration_no_resolution as (_ & Hproxy & Hclient).
  split.
  - apply (Hproxy (Some "key") (bare_request (JStr "vidu2.0") (JStr "8"))
             _ "8"); [reflexivity|reflexivity|discriminate|reflexivity|
                      discriminate].
  - apply (Hclient (Some "key") "https://example.com/cat.png"
             (image_form Tracker.vidu2_0 (Tracker.Int 8)));
      [discriminate|vm_compute; reflexivity].
Defined.

End Defaults.

(** ** The proxy's validation and error envelopes *)

Module RouteFacts.
Import Js Wire Routes ApiClient Samples MoreSamples ProxyFacts.

Lemma opt_truthy_negb k : negb (opt_truthy k) = false → opt_truthy k = true.
Proof. by destruct (opt_truthy k). Qed.

Lemma one_image v :
  negb (truthy v) || negb (isArray v) || Nat.eqb (arr_length v) 0 = false →
  Nat.ltb 1 (arr_length v) = false →
  ∃ x, v = JArr [x].
Proof.
  destruct v as [| |?|?|?|l|?]; simpl; intros H1 H2;
    rewrite ?orb_true_r in H1; try discriminate.
  destruct l as [|x [|y l]]; try discriminate. eauto.
Qed.

Lemma includes_str_In arr v :
  includes_str arr v = true ↔ ∃ m, v = JStr m ∧ In m arr.
Proof.
  destruct v; simpl;
    try (split; [discriminate|intros (m & [=] & _)]).
  rewrite existsb_exists. split.
  - intros (m & Hin & ->%String.eqb_eq). eauto.
  - intros (m & [= ->] & Hin). exists m. by rewrite String.eqb_refl.
Qed.

(** X1. [POST /api/img2video] posts to the remote exactly when the API
    key is set, [images] is an array of one element and the model (with
    its default) is one of the three valid ones, and then posts
    [requestData]. Otherwise it answers itself: 500 without a key,
    whatever the body; else 400 "Validation Error". *)
Theorem img2video_outcome (apiKey : option string) (b : Proxy.Body) :
  match Proxy.img2video apiKey b with
  | Proxy.Forward rd =>
      opt_truthy apiKey = true
      ∧ (∃ x, Proxy.images b = JArr [x])
      ∧ (∃ m, Proxy.effective_model b = JStr m ∧ In m Proxy.validModels)
      ∧ rd = Proxy.requestData b
  | Proxy.Respond st err msg =>
      (opt_truthy apiKey = false ∧ st = 500
       ∧ err = "API key not configured")
      ∨ (opt_truthy apiKey = true ∧ st = 400 ∧ err = "Validation Error"
         ∧ ((∀ x, Proxy.images b ≠ JArr [x])
            ∨ ¬ ∃ m, Proxy.effective_model b = JStr m
                     ∧ In m Proxy.validModels))
  end.
Proof.
  unfold Proxy.img2video.
  destruct (negb (opt_truthy apiKey)) eqn:Hk.
  { left. by destruct (opt_truthy apiKey). }
  apply opt_truthy_negb in Hk.
  destruct (negb (truthy (Proxy.images b)) || negb (isArray (Proxy.images b))
            || Nat.eqb (arr_length (Proxy.images b)) 0) eqn:Hi.
  { right. repeat split; try done. left. intros x Hx.
    rewrite Hx in Hi. discriminate. }
  destruct (Nat.ltb 1 (arr_length (Proxy.images b))) eqn:Hl.
  { right. repeat split; try done. left. intros x Hx.
    rewrite Hx in Hl. discriminate. }
  destruct (includes_str Proxy.validModels (Proxy.effective_model b)) eqn:Hm;
    cbn [negb].
  - split; [done|]. split; [by apply one_image|].
    split; [by apply includes_str_In|done].
  - right. repeat split; try done. right.
    intros H%includes_str_In. congruence.
Qed.

(** X2. A request that is forwarded keeps what it gives: a truthy
    duration and a truthy resolution are forwarded as they are, whatever
    the model, and a seed is forwarded whenever the field is present,
    also when it is 0 or null. *)
Theorem img2video_explicit_values
    (apiKey : option string) (b : Proxy.Body) (rd : gmap string jsval) :
  Proxy.img2video apiKey b = Proxy.Forward rd →
  (truthy (Proxy.duration b) = true →
     rd !! "duration" = Some (Proxy.duration b))
  ∧ (truthy (Proxy.resolution b) = true →
     rd !! "resolution" = Some (Proxy.resolution b))
  ∧ (is_undefined (Proxy.seed b) = false →
     rd !! "seed" = Some (Proxy.seed b))
  ∧ (is_undefined (Proxy.seed b) = true → rd !! "seed" = None).
Proof.
  intros Hfwd. split; [|split].
  - intros Hd. rewrite (forwarded_duration _ _ _ Hfwd).
    unfold Proxy.finalDuration. by rewrite Hd.
  - intros Hr. rewrite (forwarded_resolution _ _ _ Hfwd).
    unfold Proxy.finalResolution. by rewrite Hr, Hr.
  - destruct (forwarded_requestData _ _ _ Hfwd) as [-> _].
    unfold Proxy.requestData, Proxy.set_if.
    split; intros Hs; destruct (Proxy.seed b); try discriminate;
      repeat case_match; by simplify_map_eq.
Qed.

Lemma img2video_explicit_values_witness :
  Proxy.requestData odd_request !! "duration" = Some (JNum 8)
  ∧ Proxy.requestData odd_request !! "resolution" = Some (JStr "360p")
  ∧ Proxy.requestData odd_request !! "seed" = Some (JNum 0)
  ∧ Proxy.requestData (bare_request JUndefined JUndefined) !! "seed" = None.
Proof.
  destruct (img2video_explicit_values (Some "key") odd_request
              (Proxy.requestData odd_request) eq_refl)
    as (Hd & Hr & Hs & _).
  destruct (img2video_explicit_values (Some "key")
              (bare_request JUndefined JUndefined)
              (Proxy.requestData (bare_request JUndefined JUndefined))
              eq_refl) as (_ & _ & _ & Hn).
  split; [apply Hd; reflexivity|].
  split; [apply Hr; reflexivity|].
  split; [apply Hs; reflexivity|apply Hn; reflexivity].
Defined.

End RouteFacts.

Module EnvelopeFacts.
Import Js Wire Routes ApiClient Samples MoreSamples ProxyFacts RouteFacts.

(** X3. Every error envelope of the proxy's [catch] has a non-empty
    [error] and a truthy [message]. Its status is the remote's whenever
    the remote answered, also when the error carries the abort code;
    without an answer it is 408 for an aborted request and 500 for
    anything else. *)
Theorem onError_envelope (extra : list (string * jsval)) (e : AxiosError) :
  truthy (get "error" (body (onError extra e))) = true
  ∧ truthy (get "message" (body (onError extra e))) = true
  ∧ (∀ r, e_response e = Some r → status (onError extra e) = r_status r)
  ∧ (e_response e = None →
       status (onError extra e)
       = if bool_decide (e_code e = Some "ECONNABORTED") then 408 else 500).
Proof.
  unfold onError.
  destruct (e_response e) as [r|] eqn:Hr.
  - simpl. split; [done|]. split; [|split; [by intros ? [= ->]|done]].
    destruct (truthy (get "message"
      (if truthy (r_data r) then r_data r else JObj []))) eqn:Hm; [done|].
    done.
  - destruct (e_code e) as [c|]; simpl.
    + destruct (String.eqb_spec c "ECONNABORTED") as [->|Hc]; simpl.
      * repeat split; try done.
      * repeat split; try done. intros _.
        rewrite bool_decide_eq_false_2; [done|]. by intros [= ->].
    + repeat split; done.
Qed.

Lemma onError_envelope_witness :
  status (onError [] remote404) = 404
  ∧ status (onError [] aborted) = 408.
Proof.
  split.
  - apply (proj1 (proj2 (proj2 (onError_envelope [] remote404)))
             {| r_status := 404; r_statusText := "Not Found";
                r_data := JObj [("message", JStr "task not found")] |}).
    reflexivity.
  - apply (proj2 (proj2 (proj2 (onError_envelope [] aborted)))).
    reflexivity.
Defined.

End EnvelopeFacts.

Module ClientFacts.
Import Js Wire Routes ApiClient Str Samples MoreSamples ProxyFacts RouteFacts.
Import ReplyFacts.

(** X4. Whenever one of the four routes of the proxy answers with an
    error (the key is missing, the body is invalid, or the call to the
    remote fails), the [Error] the browser's interceptor throws carries
    the [error] field of the envelope, one of five fixed strings; the
    [message] and [details] of the envelope are not used. *)
Theorem proxy_errors_show_error_field
    (apiKey : option string) (tb : TextBody) (ib : Proxy.Body)
    (id : string) (e : AxiosError) (statusText message : string) :
  let seen r := interceptor (received r statusText message) in
  let shown r := seen r = toStr (get "error" (body r))
                 ∧ In (seen r) envelope_errors in
  shown (text2video_reply apiKey tb (Fails e))
  ∧ shown (img2video_reply apiKey ib (Fails e))
  ∧ shown (videos_reply apiKey id (Fails e))
  ∧ shown (creations_reply apiKey id (Fails e)).
Proof.
  intros seen shown. unfold shown, seen, envelope_errors.
  assert (∀ extra, assoc "detail" extra = JUndefined →
            interceptor (received (relay extra (Fails e)) statusText message)
            = toStr (get "error" (body (relay extra (Fails e))))
            ∧ In (interceptor
                    (received (relay extra (Fails e)) statusText message))
                envelope_errors) as Hrelay.
  { intros extra Hx.
    destruct (interceptor_relay_Fails extra e statusText message Hx)
      as [Heq Hin].
    split; [done|]. simpl in *. tauto. }
  assert (interceptor (received notConfigured statusText message)
          = toStr (get "error" (body notConfigured))
          ∧ In (interceptor (received notConfigured statusText message))
              envelope_errors) as Hkey.
  { split; [done|]. by left. }
  split; [|split; [|split]].
  - unfold text2video_reply, text2video.
    destruct (negb (opt_truthy apiKey)); [apply Hkey|by apply Hrelay].
  - unfold img2video_reply, Proxy.img2video.
    destruct (negb (opt_truthy apiKey)); [split; [done|by left]|].
    destruct (negb (truthy (Proxy.images ib))
              || negb (isArray (Proxy.images ib))
              || Nat.eqb (arr_length (Proxy.images ib)) 0);
      [split; [done|right; by left]|].
    destruct (Nat.ltb 1 (arr_length (Proxy.images ib)));
      [split; [done|right; by left]|].
    destruct (negb (includes_str Proxy.validModels
                      (Proxy.effective_model ib)));
      [split; [done|right; by left]|].
    by apply Hrelay.
  - unfold videos_reply.
    destruct (negb (opt_truthy apiKey)); [apply Hkey|by apply Hrelay].
  - unfold creations_reply.
    destruct (negb (opt_truthy apiKey)); [apply Hkey|by apply Hrelay].
Qed.


(** X5. When the creations route of the proxy answers a lookup with an
    error, the message the lookup sets is one of four fixed strings,
    whatever the remote said: a 404 of the remote shows as
    "Vidu API Error", and the not-found text with the task id is never
    produced on this path. *)
Theorem lookup_through_proxy
    (apiKey : option string) (id taskId : string) (e : AxiosError)
    (statusText message : string) :
  let shown :=
    Tracker.lookupErrorMessage taskId
      (rejection (received (creations_reply apiKey id (Fails e))
                    statusText message)) in
  In shown lookup_messages ∧ shown ≠ Tracker.notFoundMessage taskId.
Proof.
  intros shown.
  assert (In shown lookup_messages) as Hin.
  { unfold shown, rejection, creations_reply.
    destruct (negb (opt_truthy apiKey)).
    - rewrite interceptor_notConfigured. by left.
    - destruct (interceptor_relay_Fails [("taskId", JStr id)] e
                  statusText message eq_refl) as [_ Hin].
      destruct Hin as [<-|[<-|[<-|[]]]]; vm_compute; tauto. }
  split; [done|].
  intros Heq. rewrite Heq in Hin. unfold Tracker.notFoundMessage in Hin.
  simpl in Hin. destruct Hin as [H|[H|[H|[H|[]]]]]; discriminate H.
Qed.

(** X6. With a response that has no [detail], [error] or [message]
    in its body, the interceptor goes by the status: after a 404 the
    lookup shows the not-found text with the task id, after a 401 the
    authentication text, and after a 403 the interceptor's own
    "Access forbidden" text. *)
Theorem lookup_by_status (taskId : string) (e : AxiosError) (r : Response) :
  e_response e = Some r →
  truthy (get "detail" (r_data r)) = false →
  truthy (get "error" (r_data r)) = false →
  truthy (get "message" (r_data r)) = false →
  (r_status r = 404 →
     Tracker.lookupErrorMessage taskId (rejection e)
     = Tracker.notFoundMessage taskId)
  ∧ (r_status r = 401 →
     Tracker.lookupErrorMessage taskId (rejection e)
     = "Authentication failed. Please check your API key configuration.")
  ∧ (r_status r = 403 →
     Tracker.lookupErrorMessage taskId (rejection e)
     = "Access forbidden. Please verify your API key permissions.").
Proof.
  intros Hr Hd He Hm.
  unfold rejection, interceptor. rewrite Hr, Hd, He, Hm.
  split; [|split]; intros ->; reflexivity.
Qed.

Lemma lookup_by_status_witness :
  Tracker.lookupErrorMessage "t9" (rejection bare404)
  = Tracker.notFoundMessage "t9"
  ∧ Tracker.lookupErrorMessage "t9" (rejection bare401)
    = "Authentication failed. Please check your API key configuration.".
Proof.
  split.
  - apply (lookup_by_status "t9" bare404
             {| r_status := 404; r_statusText := "Not Found";
                r_data := JStr "" |}); reflexivity.
  - apply (lookup_by_status "t9" bare401
             {| r_status := 401; r_statusText := "Unauthorized";
                r_data := JUndefined |}); reflexivity.
Defined.

End ClientFacts.

Module EndToEnd.
Import Js Wire Routes ApiClient Str Tracker Samples MoreSamples ProxyFacts.

(** X7. A text job that [handleSubmit] accepts is posted by the proxy
    with the eight fields the browser sent, no default of the proxy
    coming into play: the prompt trimmed and non-empty, model "viduq1",
    duration "5", aspect ratio "16:9", style "general", seed "0",
    resolution "1080p", movement amplitude "auto". *)
Theorem text_job_forwarded (s : State) (key : string) :
  str_truthy (trim (Tracker.prompt (view s))) = true →
  isGenerating (view s) = false →
  str_truthy key = true →
  ∃ r rd,
    requests (handleSubmit s) = PostText2Video r :: requests s
    ∧ text2video (Some key) (toTextBody r) = Some rd
    ∧ trim (Tracker.prompt (view s)) ≠ ""
    ∧ rd = {[ "prompt" := JStr (trim (Tracker.prompt (view s)));
              "model" := JStr "viduq1"; "duration" := JStr "5";
              "aspect_ratio" := JStr "16:9"; "style" := JStr "general";
              "seed" := JStr "0"; "resolution" := JStr "1080p";
              "movement_amplitude" := JStr "auto" ]}.
Proof.
  intros Hp Hg Hk.
  exists (textRequest (view s)), (textRequestData (toTextBody (textRequest (view s)))).
  split; [|split; [|split]].
  - unfold handleSubmit. by rewrite Hp, Hg.
  - unfold text2video; simpl. by rewrite Hk.
  - intros Hempty. rewrite Hempty in Hp. discriminate.
  - apply map_eq. intros k.
    unfold textRequestData, Proxy.set_if; simpl.
    rewrite !lookup_insert, lookup_singleton, lookup_empty.
    repeat (case_decide; [by subst|]). done.
Qed.

Lemma text_job_forwarded_witness :
  ∃ r rd,
    requests (handleSubmit text_form_filled)
    = PostText2Video r :: requests text_form_filled
    ∧ text2video (Some "key") (toTextBody r) = Some rd
    ∧ trim (Tracker.prompt (view text_form_filled)) ≠ ""
    ∧ rd = {[ "prompt" :=
                JStr (trim (Tracker.prompt (view text_form_filled)));
              "model" := JStr "viduq1"; "duration" := JStr "5";
              "aspect_ratio" := JStr "16:9"; "style" := JStr "general";
              "seed" := JStr "0"; "resolution" := JStr "1080p";
              "movement_amplitude" := JStr "auto" ]}.
Proof.
  apply (text_job_forwarded text_form_filled "key"); reflexivity.
Defined.

(** X8. An image job that [handleImageSubmit] sends passes the proxy's
    validation whenever the key is set: it is posted with the one image
    of the form (the trimmed URL, or the data URL of the file), the
    selected model, the duration as a string, the background-music flag,
    movement amplitude "auto", the trimmed prompt when there is one, and
    neither a seed nor a payload nor a callback URL. The request is
    sent by the handler itself for a URL, and when the read of the file
    ends for a file, with the form as it was when the handler ran. *)
Theorem image_job_forwarded (v : View) (img key : string) (s : State) :
  str_truthy key = true →
  (∃ r rd,
    requests (submitImage v img s) = PostImg2Video r :: requests s
    ∧ Proxy.img2video (Some key) (toBody r) = Proxy.Forward rd
    ∧ rd !! "images" = Some (JArr [JStr img])
    ∧ rd !! "model" = Some (JStr (model_name (imageModel v)))
    ∧ rd !! "duration"
      = Some (JStr (num_toString (Tracker.finalDuration v)))
    ∧ rd !! "bgm" = Some (JBool (imageBgm v))
    ∧ rd !! "movement_amplitude" = Some (JStr "auto")
    ∧ rd !! "prompt"
      = (if str_truthy (trim (imagePrompt v))
         then Some (JStr (trim (imagePrompt v))) else None)
    ∧ rd !! "seed" = None ∧ rd !! "payload" = None
    ∧ rd !! "callback_url" = None)
  ∧ (isGeneratingFromImage (view s) = false →
     uploadMethod (view s) = ByUrl →
     str_truthy (trim (imageUrl (view s))) = true →
     handleImageSubmit s
     = submitImage (view s) (trim (imageUrl (view s))) s)
  ∧ (∀ rid f,
     find_inflight rid s = Some (AwaitFileRead f v) →
     dataUrl f = Some img →
     step (FileRead rid) s = Some (submitImage v img (drop_inflight rid s))).
Proof.
  intros Hk. split; [|split].
  - exists (imageRequest img v),
      (Proxy.requestData (toBody (imageRequest img v))).
    split; [done|]. split.
    + unfold Proxy.img2video; simpl. rewrite Hk; simpl.
      unfold Proxy.effective_model; simpl.
      by destruct (imageModel v).
    + assert (Proxy.finalDuration (toBody (imageRequest img v))
              = JStr (num_toString (Tracker.finalDuration v))) as Hfd.
      { unfold Proxy.finalDuration; simpl.
        pose proof (Defaults.num_toString_nonempty
                      (Tracker.finalDuration v)) as Hne.
        by destruct (String.eqb_spec
                       (num_toString (Tracker.finalDuration v)) ""). }
      unfold Proxy.requestData, Proxy.set_if. rewrite Hfd. simpl.
      destruct (str_truthy (trim (imagePrompt v))) eqn:Hp; simpl.
      * unfold str_truthy in Hp. rewrite Hp.
        repeat case_match; by simplify_map_eq.
      * repeat case_match; by simplify_map_eq.
  - intros Hg Hu Ht. unfold handleImageSubmit. by rewrite Hg, Hu, Ht.
  - intros rid f Hf Hd. simpl. rewrite Hf.
    unfold handleImageSubmit_read. by rewrite Hd.
Qed.

Lemma image_job_forwarded_witness :
  (∃ r rd,
    requests (submitImage (view image_form_filled)
                "https://example.com/cat.png" image_form_filled)
    = PostImg2Video r :: requests image_form_filled
    ∧ Proxy.img2video (Some "key") (toBody r) = Proxy.Forward rd
    ∧ rd !! "images" = Some (JArr [JStr "https://example.com/cat.png"])
    ∧ rd !! "model" = Some (JStr "vidu2.0")
    ∧ rd !! "duration" = Some (JStr "8")
    ∧ rd !! "bgm" = Some (JBool true)
    ∧ rd !! "movement_amplitude" = Some (JStr "auto")
    ∧ rd !! "prompt" = Some (JStr "pan left")
    ∧ rd !! "seed" = None ∧ rd !! "payload" = None
    ∧ rd !! "callback_url" = None)
  ∧ handleImageSubmit image_form_filled
    = submitImage (view image_form_filled) "https://example.com/cat.png"
        image_form_filled
  ∧ step (FileRead 1) reading_twice
    = Some (submitImage (view file_form) "data:image/png;base64,AAAA"
              (drop_inflight 1 reading_twice)).
Proof.
  split; [|split].
  - apply (image_job_forwarded (view image_form_filled)
             "https://example.com/cat.png" "key" image_form_filled).
    reflexivity.
  - apply (image_job_forwarded (view image_form_filled)
             "https://example.com/cat.png" "key" image_form_filled);
      vm_compute; reflexivity.
  - apply (proj2 (proj2 (image_job_forwarded (view file_form)
             "data:image/png;base64,AAAA" "key" reading_twice eq_refl))
             1%N {| dataUrl := Some "data:image/png;base64,AAAA" |});
      vm_compute; reflexivity.
Defined.

End EndToEnd.

Module ViewFacts.
Import Js Str Tracker Observe Samples MoreSamples TrackerFacts.

(** X9. An image submission that fails the form's own checks sets one
    of three messages and does nothing else: no request is sent, the
    current job, the polling flag, the history and the timers stay as
    they are. A blank URL and a missing file are found by the handler
    itself, a file that cannot be read when its read ends. While
    [isGeneratingFromImage] is set a submission is a no-op; submitting a
    file only starts its read and leaves the flag clear. *)
Theorem image_submit_rejected (s : State) :
  (isGeneratingFromImage (view s) = true → handleImageSubmit s = s)
  ∧ (isGeneratingFromImage (view s) = false →
     uploadMethod (view s) = ByUrl → trim (imageUrl (view s)) = "" →
     handleImageSubmit s
     = render (setError (Some "Please provide an image URL")) s)
  ∧ (isGeneratingFromImage (view s) = false →
     uploadMethod (view s) = ByFile → imageFile (view s) = None →
     handleImageSubmit s
     = render (setError (Some "Please select an image file")) s)
  ∧ (∀ f, isGeneratingFromImage (view s) = false →
     uploadMethod (view s) = ByFile → imageFile (view s) = Some f →
     view (handleImageSubmit s) = view s
     ∧ requests (handleImageSubmit s) = requests s
     ∧ inflight (handleImageSubmit s)
       = (next_handle s, AwaitFileRead f (view s)) :: inflight s)
  ∧ (∀ rid f v, find_inflight rid s = Some (AwaitFileRead f v) →
     dataUrl f = None →
     step (FileRead rid) s
     = Some (render (setError (Some "Failed to process image file"))
               (drop_inflight rid s))).
Proof.
  unfold handleImageSubmit.
  split; [by intros ->|].
  split; [intros -> -> ->; reflexivity|].
  split; [intros -> -> ->; reflexivity|].
  split; [intros f -> -> ->; done|].
  intros rid f v Hf Hd. simpl. rewrite Hf.
  unfold handleImageSubmit_read. by rewrite Hd.
Qed.

Lemma image_submit_rejected_witness :
  handleImageSubmit initial
  = render (setError (Some "Please provide an image URL")) initial
  ∧ view (handleImageSubmit file_form) = view file_form.
Proof.
  split.
  - apply (proj1 (proj2 (image_submit_rejected initial))); reflexivity.
  - apply (proj1 (proj2 (proj2 (proj2 (image_submit_rejected file_form))))
             {| dataUrl := Some "data:image/png;base64,AAAA" |});
      reflexivity.
Defined.


(** X11. The status shown is one of five words; it is "processing"
    exactly while [isPolling] is set; whenever it is "completed" there
    is a generated video to show; and a generated video that is there
    shows as "completed" as soon as [isPolling] is clear. *)
Theorem status_cases (v : View) :
  In (getCurrentStatus v)
    ["processing"; "completed"; "failed"; "pending"; "idle"]
  ∧ (getCurrentStatus v = "processing" ↔ isPolling v = true)
  ∧ (getCurrentStatus v = "completed" →
       ∃ c, getGeneratedVideo v = Some c)
  ∧ ((∃ c, getGeneratedVideo v = Some c) → isPolling v = false →
       getCurrentStatus v = "completed").
Proof.
  unfold getCurrentStatus, getGeneratedVideo.
  destruct (isPolling v).
  { split; [by left|]. split; [done|]. split; [discriminate|].
    by intros _ [=]. }
  destruct (taskCreationsResponse v) as [r|].
  - destruct (String.eqb (state r) "success"
              && has_creations (creations r)) eqn:Hs.
    + split; [right; by left|]. split; [done|].
      split; [|done]. intros _.
      apply andb_true_iff in Hs as [_ Hc].
      destruct (creations r) as [[|c cs]|]; try discriminate. eauto.
    + repeat case_match; simpl;
        (split; [tauto|]); (split; [done|]);
        (split; [discriminate|by intros [c [=]]]).
  - repeat case_match; simpl;
      (split; [tauto|]); (split; [done|]);
      (split; [discriminate|by intros [c [=]]]).
Qed.

End ViewFacts.

Module SettleFacts.
Import Js Str Tracker Observe Samples MoreSamples TrackerFacts.

(** X12. A status check of a poll that is neither a success with
    creations nor an error (state other than "error", no error code)
    only stores the response: the interval and its timeout stay, the
    polling flag, the message and the history are untouched. A "success"
    that lists no creation is such a response. *)
Theorem poll_pending_continues
    (s : State) (rid pollInterval : N)
    (response : ViduTaskCreationsResponse) (created updated : string) :
  find_inflight rid s = Some (AwaitPoll pollInterval) →
  ¬ (state response = "success"
     ∧ has_creations (creations response) = true) →
  state response ≠ "error" →
  opt_truthy (err_code response) = false →
  ∃ s', step (Settle rid (CreationsData response) created updated) s
        = Some s'
      ∧ view s' = setTaskCreationsResponse (Some response) (view s)
      ∧ intervals s' = intervals s
      ∧ timeouts s' = timeouts s
      ∧ requests s' = requests s.
Proof.
  intros Hk Hnot Herr Hcode.
  rewrite (step_Settle _ _ _ _ _ _ Hk). simpl.
  unfold intervalCallback_resume.
  assert (String.eqb (state response) "success"
          && has_creations (creations response) = false) as ->.
  { apply not_true_is_false. intros [H1 H2]%andb_true_iff.
    apply Hnot. by apply String.eqb_eq in H1. }
  assert (String.eqb (state response) "error" = false) as ->
    by by apply String.eqb_neq.
  rewrite Hcode. simpl. eexists. split; [reflexivity|]. done.
Qed.

Lemma poll_pending_continues_witness :
  ∃ s', step (Settle 4 (CreationsData emptySuccess) stamp stamp)
          awaiting_poll = Some s'
      ∧ view s'
        = setTaskCreationsResponse (Some emptySuccess) (view awaiting_poll)
      ∧ intervals s' = intervals awaiting_poll
      ∧ timeouts s' = timeouts awaiting_poll
      ∧ requests s' = requests awaiting_poll.
Proof.
  apply (poll_pending_continues awaiting_poll 4 2 emptySuccess stamp stamp);
    [vm_compute; reflexivity|intros [_ H]; discriminate H|discriminate|
     reflexivity].
Defined.

(** X13. A status check of a poll that is rejected ends the poll at
    once: its interval is cleared, [isPolling] is cleared and the
    error's message is set (or "Failed to check video status" for a
    value that is no [Error]); the last response, the history and the
    timeout stay as they were. *)
Theorem poll_rejected_stops
    (s : State) (rid pollInterval : N) (e : Thrown)
    (created updated : string) :
  find_inflight rid s = Some (AwaitPoll pollInterval) →
  ∃ s', step (Settle rid (Rejects e) created updated) s = Some s'
      ∧ registered pollInterval s' = false
      ∧ isPolling (view s') = false
      ∧ error (view s')
        = Some (message_or "Failed to check video status" e)
      ∧ taskCreationsResponse (view s') = taskCreationsResponse (view s)
      ∧ videoHistory (view s') = videoHistory (view s)
      ∧ timeouts s' = timeouts s.
Proof.
  intros Hk. rewrite (step_Settle _ _ _ _ _ _ Hk). simpl.
  eexists. split; [reflexivity|].
  split; [|done].
  rewrite !registered_render. apply registered_clearInterval.
Qed.

Lemma poll_rejected_stops_witness :
  ∃ s', step (Settle 4 (Rejects (ErrorObject "Vidu API Error")) stamp stamp)
          awaiting_poll = Some s'
      ∧ registered 2 s' = false
      ∧ isPolling (view s') = false
      ∧ error (view s')
        = Some (message_or "Failed to check video status"
                  (ErrorObject "Vidu API Error"))
      ∧ taskCreationsResponse (view s')
        = taskCreationsResponse (view awaiting_poll)
      ∧ videoHistory (view s') = videoHistory (view awaiting_poll)
      ∧ timeouts s' = timeouts awaiting_poll.
Proof.
  apply (poll_rejected_stops awaiting_poll 4 2); vm_compute; reflexivity.
Defined.

(** X14. When the creation request of a text job settles: a rejection
    sets its message and adds nothing to the history nor to the timers;
    an answer with a task id puts the job in front of the history, sets
    [isPolling] and registers one interval for that task, first due
    5000 ms later, and one timeout due 600000 ms later; an answer
    without a task id puts the job in the history and starts no poll.
    In each case [isGenerating] is cleared. *)
Theorem creation_settles
    (s : State) (rid : N)
    (snapshot : option ViduTaskCreationsResponse)
    (created updated : string) :
  find_inflight rid s = Some (AwaitGenerate snapshot) →
  (∀ e, ∃ s',
     step (Settle rid (Rejects e) created updated) s = Some s'
     ∧ error (view s') = Some (message_or "Failed to generate video" e)
     ∧ isGenerating (view s') = false
     ∧ videoHistory (view s') = videoHistory (view s)
     ∧ intervals s' = intervals s ∧ timeouts s' = timeouts s)
  ∧ (∀ response t, task_id response = Some t → t ≠ "" → ∃ s',
     step (Settle rid (VideoData response) created updated) s = Some s'
     ∧ videoHistory (view s') = response :: videoHistory (view s)
     ∧ currentTaskResponse (view s') = Some response
     ∧ isPolling (view s') = true
     ∧ isGenerating (view s') = false
     ∧ intervals s'
       = mkInterval (next_handle s) t (now s + 5000) :: intervals s
     ∧ timeouts s'
       = mkTimeout (N.succ (next_handle s)) (next_handle s) snapshot
           (now s + 600000) :: timeouts s)
  ∧ (∀ response, opt_truthy (task_id response) = false → ∃ s',
     step (Settle rid (VideoData response) created updated) s = Some s'
     ∧ videoHistory (view s') = response :: videoHistory (view s)
     ∧ isPolling (view s') = isPolling (view s)
     ∧ isGenerating (view s') = false
     ∧ intervals s' = intervals s ∧ timeouts s' = timeouts s).
Proof.
  intros Hk. split; [|split].
  - intros e. rewrite (step_Settle _ _ _ _ _ _ Hk). simpl.
    eexists. split; [reflexivity|]. done.
  - intros response t Ht Hne.
    rewrite (step_Settle _ _ _ _ _ _ Hk). simpl.
    eexists. split; [reflexivity|].
    unfold startPolling. rewrite Ht.
    assert (str_truthy t = true) as ->.
    { unfold str_truthy. by destruct (String.eqb_spec t ""). }
    done.
  - intros response Ht.
    rewrite (step_Settle _ _ _ _ _ _ Hk). simpl.
    eexists. split; [reflexivity|].
    unfold startPolling. destruct (task_id response) as [t|]; [|done].
    simpl in Ht. by rewrite Ht.
Qed.

Lemma creation_settles_witness :
  (∃ s', step (Settle 1 (VideoData (pendingJob "t1")) stamp stamp)
           awaiting_creation = Some s'
       ∧ videoHistory (view s') = [pendingJob "t1"]
       ∧ isPolling (view s') = true
       ∧ intervals s' = [mkInterval 2 "t1" 5000])
  ∧ (∃ s', step (Settle 1 (VideoData anonymousJob) stamp stamp)
             awaiting_creation = Some s'
       ∧ videoHistory (view s') = [anonymousJob]
       ∧ isPolling (view s') = false
       ∧ intervals s' = []).
Proof.
  destruct (creation_settles awaiting_creation 1 None stamp stamp)
    as (_ & Hid & Hnone); [vm_compute; reflexivity|].
  split.
  - destruct (Hid (pendingJob "t1") "t1") as (s' & Hs & Hh & _ & Hp & _ & Hi & _);
      [reflexivity|discriminate|].
    exists s'. split; [exact Hs|]. split; [exact Hh|].
    split; [exact Hp|exact Hi].
  - destruct (Hnone anonymousJob) as (s' & Hs & Hh & Hp & _ & Hi & _);
      [reflexivity|].
    exists s'. split; [exact Hs|]. split; [exact Hh|].
    split; [exact Hp|exact Hi].
Defined.

(** X15. A lookup never starts a poll: when it succeeds it registers no
    interval and no timeout, clears the task id field and the busy flag,
    and for a job that is still in progress (state neither "success" nor
    "error", no error code) the status shown stays "pending". When it
    fails the field keeps the id that was typed. *)
Theorem lookup_never_polls
    (s : State) (rid : N) (taskId : string) (created updated : string) :
  find_inflight rid s = Some (AwaitLookup taskId) →
  taskId ≠ "" →
  (∀ response, ∃ s',
     step (Settle rid (CreationsData response) created updated) s = Some s'
     ∧ intervals s' = intervals s ∧ timeouts s' = timeouts s
     ∧ isPolling (view s') = isPolling (view s)
     ∧ taskIdInput (view s') = ""
     ∧ isLookingUp (view s') = false
     ∧ (isPolling (view s) = false →
        state response ≠ "success" → state response ≠ "error" →
        opt_truthy (err_code response) = false →
        getCurrentStatus (view s') = "pending"))
  ∧ (∀ e, ∃ s',
     step (Settle rid (Rejects e) created updated) s = Some s'
     ∧ taskIdInput (view s') = taskIdInput (view s)
     ∧ isLookingUp (view s') = false
     ∧ intervals s' = intervals s ∧ timeouts s' = timeouts s).
Proof.
  intros Hk Hne. split.
  - intros response. rewrite (step_Settle _ _ _ _ _ _ Hk). simpl.
    eexists. split; [reflexivity|]. simpl.
    do 5 (split; [done|]).
    intros Hp Hs He Hc. unfold getCurrentStatus; simpl.
    rewrite Hp, Hc.
    apply String.eqb_neq in Hs, He. rewrite Hs, He. simpl.
    unfold str_truthy. by destruct (String.eqb_spec taskId "").
  - intros e. rewrite (step_Settle _ _ _ _ _ _ Hk). simpl.
    eexists. split; [reflexivity|]. done.
Qed.

Lemma lookup_never_polls_witness :
  ∃ s', step (Settle 1 (CreationsData inProgress) stamp stamp)
          awaiting_lookup = Some s'
      ∧ intervals s' = [] ∧ getCurrentStatus (view s') = "pending".
Proof.
  destruct (lookup_never_polls awaiting_lookup 1 "t9" stamp stamp)
    as [Hok _]; [vm_compute; reflexivity|discriminate|].
  destruct (Hok inProgress) as (s' & Hs & Hi & _ & _ & _ & _ & Hst).
  exists s'. split; [exact Hs|]. split; [exact Hi|].
  apply Hst; [reflexivity|discriminate|discriminate|reflexivity].
Defined.

End SettleFacts.

Module RunFacts.
Import Js Str Tracker Observe Samples MoreSamples TrackerFacts.

Lemma history_step e s s' :
  step e s = Some s' →
  videoHistory (view s') = videoHistory (view s)
  ∨ (is_settle e = true
     ∧ ∃ v, videoHistory (view s') = v :: videoHistory (view s)).
Proof.
  intros H. step_cases H; try (by left);
    try (right; split; [done|]; eauto; fail).
  all: unfold addIfAbsent; case_match; [by left|right; eauto].
Qed.

(** X16. The history only grows at the front: over any run of events
    the history before is a suffix of the history after, and at most one
    entry is added per settled request; no edit, submission, retry or
    timer removes, reorders or rewrites an entry. *)
Theorem history_append_only (es : list Event) (s s' : State) :
  run es s = Some s' →
  ∃ added,
    videoHistory (view s') = (added ++ videoHistory (view s))%list
    ∧ (length added ≤ length (List.filter is_settle es))%nat.
Proof.
  revert s. induction es as [|e es IH]; simpl; intros s.
  - intros [= <-]. exists []. split; [done|simpl; lia].
  - destruct (step e s) as [s1|] eqn:E; [|done]. intros Hrun.
    destruct (IH _ Hrun) as (added & Heq & Hlen).
    destruct (history_step _ _ _ E) as [Hsame|[Hset [v Hv]]].
    + exists added. rewrite Heq, Hsame. split; [done|].
      destruct (is_settle e); simpl; lia.
    + exists (added ++ [v])%list. rewrite Heq, Hv, <- app_assoc.
      split; [done|]. rewrite Hset, length_app. simpl. lia.
Qed.

Lemma history_append_only_witness :
  ∃ added,
    videoHistory (view polling_second)
    = (added ++ videoHistory (view polling_first))%list
    ∧ (length added ≤ 1)%nat.
Proof.
  apply (history_append_only
           [TypePrompt "a dog"; Submit;
            Settle 4 (VideoData (pendingJob "t2")) stamp stamp]
           polling_first polling_second).
  vm_compute; reflexivity.
Defined.

Lemma filter_filter_le {A} (f g : A → bool) (l : list A) :
  (length (List.filter f (List.filter g l)) ≤ length (List.filter f l))%nat.
Proof.
  induction l as [|x l IH]; simpl; [done|].
  destruct (g x), (f x) eqn:E; simpl; rewrite ?E; simpl; lia.
Qed.

(** Settling a promise takes its continuation out of those in flight. *)
Lemma awaiting_drop_le kind rid k (l : list (N * Continuation)) :
  match List.find (λ p, (fst p =? rid)%N) l with
  | Some p => Some (snd p)
  | None => None
  end = Some k →
  (length (List.filter (λ p, kind (snd p))
             (List.filter (λ p, negb (fst p =? rid)%N) l))
   + Nat.b2n (kind k)
   ≤ length (List.filter (λ p, kind (snd p)) l))%nat.
Proof.
  induction l as [|[i k0] l IH]; simpl; [done|].
  destruct (N.eqb_spec i rid) as [->|Hne]; simpl.
  - intros [= ->].
    pose proof (filter_filter_le (λ p : N * Continuation, kind (snd p))
                  (λ p, negb (fst p =? rid)%N) l).
    destruct (kind k); simpl; lia.
  - intros Hf. specialize (IH Hf). destruct (kind k0); simpl; lia.
Qed.

Lemma requests_step e s s' :
  step e s = Some s' →
  (requests s' = requests s ∨ ∃ r, requests s' = r :: requests s)
  ∧ (length (requests s') + awaiting is_fileRead s'
     ≤ length (requests s) + awaiting is_fileRead s
       + Nat.b2n (is_sender e))%nat.
Proof.
  unfold awaiting. intros H.
  step_cases H;
    try match goal with
    | Hf : find_inflight ?rid ?st = Some ?k |- _ =>
        pose proof (awaiting_drop_le is_fileRead rid k _ Hf)
    end;
    simpl in *; (split; [eauto|lia]).
Qed.

(** X17. Requests leave the browser only for a form that is sent, a
    task that is looked up or an interval that fires, one request per
    such event at most; the request of an image file leaves when the
    read that its submission started ends. Over any run the log of
    requests grows at the front, and the requests sent plus the reads
    still going on are no more than those events plus the reads going on
    at the start, so from a state with no read going on the requests
    sent are no more than those events; a settlement, a timeout, a retry
    or an edit sends nothing. *)
Theorem requests_only_from_senders (es : list Event) (s s' : State) :
  run es s = Some s' →
  ∃ sent,
    requests s' = (sent ++ requests s)%list
    ∧ (length sent + awaiting is_fileRead s'
       ≤ length (List.filter is_sender es) + awaiting is_fileRead s)%nat
    ∧ (awaiting is_fileRead s = 0%nat →
       (length sent ≤ length (List.filter is_sender es))%nat).
Proof.
  intros Hrun.
  assert (∃ sent,
            requests s' = (sent ++ requests s)%list
            ∧ (length sent + awaiting is_fileRead s'
               ≤ length (List.filter is_sender es)
                 + awaiting is_fileRead s)%nat) as (sent & Heq & Hlen).
  { revert s Hrun. induction es as [|e es IH]; simpl; intros s.
    - intros [= <-]. exists []. split; [done|simpl; lia].
    - destruct (step e s) as [s1|] eqn:E; [|done]. intros Hrun.
      destruct (IH _ Hrun) as (sent & Heq & Hlen).
      destruct (requests_step _ _ _ E) as [[Hsame|[r Hr]] Hle].
      + exists sent. rewrite Heq, Hsame. split; [done|].
        rewrite Hsame in Hle. destruct (is_sender e); simpl in *; lia.
      + exists (sent ++ [r])%list. rewrite Heq, Hr, <- app_assoc.
        split; [done|]. rewrite Hr in Hle. rewrite length_app.
        destruct (is_sender e); simpl in *; lia. }
  exists sent. split; [done|]. split; [done|lia].
Qed.

Lemma requests_only_from_senders_witness :
  (∃ sent,
    requests first_done = (sent ++ requests polling_first)%list
    ∧ (length sent ≤ 1)%nat)
  ∧ (∃ sent,
    requests sent_twice = (sent ++ requests file_form)%list
    ∧ (length sent ≤ 2)%nat).
Proof.
  split.
  - destruct (requests_only_from_senders
                [Elapse 5000; IntervalFires 2;
                 Settle 4 (CreationsData ready) stamp stamp]
                polling_first first_done)
      as (sent & Heq & _ & Hle); [vm_compute; reflexivity|].
    exists sent. split; [exact Heq|]. apply Hle. vm_compute; reflexivity.
  - destruct (requests_only_from_senders
                [ImageSubmit; ImageSubmit; FileRead 1; FileRead 2]
                file_form sent_twice)
      as (sent & Heq & _ & Hle); [vm_compute; reflexivity|].
    exists sent. split; [exact Heq|]. apply Hle. vm_compute; reflexivity.
Defined.

End RunFacts.

Module Invariants.
Import Js Str Tracker Observe Samples MoreSamples TrackerFacts.

Lemma filter_absent (rid : N) (l : list (N * Continuation)) :
  ¬ In rid (List.map fst l) →
  List.filter (λ p, negb (fst p =? rid)%N) l = l.
Proof.
  induction l as [|[i k] l IH]; simpl; [done|]. intros Hn.
  destruct (N.eqb_spec i rid) as [->|Hne]; simpl.
  - destruct Hn. by left.
  - rewrite IH; [done|]. intros H. apply Hn. by right.
Qed.

(** Settling a request takes exactly its continuation out of the
    requests in flight. *)
Lemma awaiting_drop kind rid k (l : list (N * Continuation)) :
  NoDup (List.map fst l) →
  match List.find (λ p, (fst p =? rid)%N) l with
  | Some p => Some (snd p)
  | None => None
  end = Some k →
  (length (List.filter (λ p, kind (snd p))
             (List.filter (λ p, negb (fst p =? rid)%N) l))
   + Nat.b2n (kind k))%nat
  = length (List.filter (λ p, kind (snd p)) l).
Proof.
  induction l as [|[i k0] l IH]; simpl; [done|].
  intros Hnd. apply NoDup_cons in Hnd as [Hi Hnd].
  destruct (N.eqb_spec i rid) as [->|Hne]; simpl.
  - intros [= ->]. rewrite filter_absent.
    + destruct (kind k); simpl; lia.
    + by rewrite <- list_elem_of_In.
  - intros Hf. specialize (IH Hnd Hf).
    destruct (kind k0); simpl; lia.
Qed.

Lemma NoDup_drop rid (l : list (N * Continuation)) :
  NoDup (List.map fst l) →
  NoDup (List.map fst (List.filter (λ p, negb (fst p =? rid)%N) l)).
Proof.
  induction l as [|[i k] l IH]; simpl; [done|].
  intros [Hi Hnd]%NoDup_cons. destruct (negb (i =? rid)%N); simpl; [|auto].
  apply NoDup_cons. split; [|auto].
  intros Hin. apply Hi. apply list_elem_of_In in Hin.
  apply list_elem_of_In. apply in_map_iff in Hin as ([i' k'] & <- & Hin).
  apply in_map_iff. exists (i', k'). split; [done|].
  by apply filter_In in Hin as [? _].
Qed.

Lemma NoDup_fresh (n : N) (l : list (N * Continuation)) :
  NoDup (List.map fst l) → Forall (λ p, (fst p < n)%N) l →
  NoDup (n :: List.map fst l).
Proof.
  intros Hnd Hlt. apply NoDup_cons. split; [|done].
  intros Hin%list_elem_of_In. apply in_map_iff in Hin as (p & Hp & Hin).
  rewrite List.Forall_forall in Hlt. specialize (Hlt _ Hin). lia.
Qed.

Lemma Forall_drop n rid (l : list (N * Continuation)) :
  Forall (λ p, (fst p < n)%N) l →
  Forall (λ p, (fst p < n)%N) (List.filter (λ p, negb (fst p =? rid)%N) l).
Proof.
  rewrite !List.Forall_forall. intros H p [Hin _]%filter_In. auto.
Qed.

Lemma Forall_lt_mono (n m : N) (l : list (N * Continuation)) :
  (n ≤ m)%N → Forall (λ p, (fst p < n)%N) l → Forall (λ p, (fst p < m)%N) l.
Proof.
  intros Hle H. eapply Forall_impl; [exact H|].
  intros p Hp. simpl in *. lia.
Qed.

Lemma ids_fresh_step e s s' :
  step e s = Some s' → ids_fresh s → ids_fresh s'.
Proof.
  unfold ids_fresh. intros H [Hnd Hlt].
  step_cases H; try done;
    repeat match goal with
    | |- _ ∧ _ => split
    | |- NoDup (_ :: List.map fst (List.filter _ _)) =>
        by (apply NoDup_fresh; [apply NoDup_drop|apply Forall_drop])
    | |- NoDup (_ :: List.map fst _) => by apply NoDup_fresh
    | |- NoDup (List.map fst (List.filter _ _)) => by apply NoDup_drop
    | |- Forall _ (_ :: _) => apply Forall_cons; split; [simpl; lia|]
    | |- Forall _ (List.filter _ _) => apply Forall_drop
    | |- Forall _ _ =>
        by (eapply Forall_lt_mono; [|exact Hlt]; lia)
    end.
Qed.

Ltac case_flag f :=
  try (repeat match goal with
              | Hx : context [f (view _)] |- _ => revert Hx
              end;
       match goal with
       | |- context [f (view ?st)] => destruct (f (view st))
       end;
       intros).

Lemma flags_match_step e s s' :
  step e s = Some s' → ids_fresh s → flags_match s → flags_match s'.
Proof.
  unfold flags_match, awaiting. intros H [Hnd _] (Hg & Hi & Hl).
  step_cases H;
    try match goal with
    | Hf : find_inflight ?rid ?st = Some ?k,
      Hn : NoDup (List.map fst (inflight ?st)) |- _ =>
        pose proof (awaiting_drop is_generate rid k _ Hn Hf);
        pose proof (awaiting_drop is_generateFromImage rid k _ Hn Hf);
        pose proof (awaiting_drop is_lookup rid k _ Hn Hf)
    end;
    case_flag isGenerating; case_flag isGeneratingFromImage;
    case_flag isLookingUp;
    rewrite ?orb_true_r in *;
    simpl in *; try discriminate; repeat split; lia.
Qed.

Lemma run_invariant (P : State → Prop) :
  (∀ e s s', step e s = Some s' → P s → P s') →
  ∀ es s s', run es s = Some s' → P s → P s'.
Proof.
  intros Hstep es. induction es as [|e es IH]; simpl; intros s s'.
  - by intros [= <-].
  - destruct (step e s) as [s1|] eqn:E; [|done].
    intros Hrun Hs. apply (IH _ _ Hrun). by eapply Hstep.
Qed.

Lemma timers_paired_In s :
  timers_paired s ↔
  (∀ t, In t (timeouts s) → t_handle t = N.succ (t_pollInterval t))
  ∧ (∀ i, In i (intervals s) →
       ∃ t, In t (timeouts s) ∧ t_pollInterval t = i_handle i).
Proof.
  unfold timers_paired. rewrite !List.Forall_forall.
  by setoid_rewrite List.Exists_exists.
Qed.

Lemma timers_paired_step e s s' :
  step e s = Some s' → timers_paired s → timers_paired s'.
Proof.
  rewrite !timers_paired_In. intros H [Ht Hi].
  step_cases H; try done.
  (* a poll starts: one interval and its timeout come in together *)
  1,2: split;
    [intros t' [<-|Hin]; [done|auto]
    |intros i' [<-|Hin];
       [eexists; split; [by left|done]
       |destruct (Hi _ Hin) as (t' & ? & ?); exists t'; split;
          [by right|done]]].
  (* a status check clears its interval *)
  1-3: split; [done|intros i' [Hin _]%filter_In; auto].
  (* an interval fires and is due again *)
  - split; [done|]. intros i' Hin.
    apply in_map_iff in Hin as (i0 & <- & Hin0).
    destruct (Hi _ Hin0) as (t' & ? & ?). exists t'. split; [done|].
    by destruct (has_handle h i0).
  (* a timeout fires: it goes, and so does its interval *)
  - split; [intros t' [Hin _]%filter_In; auto|].
    intros i' [Hin Hneq]%filter_In.
    destruct (Hi _ Hin) as (t' & Hin' & Hp). exists t'. split; [|done].
    apply filter_In. split; [done|].
    match goal with
    | Hf : find_timeout _ _ = Some ?t0 |- _ =>
        apply List.find_some in Hf as [Hin0 Hh0];
        pose proof (Ht _ Hin0); pose proof (Ht _ Hin')
    end.
    unfold has_handle in Hneq.
    apply negb_true_iff, N.eqb_neq. apply negb_true_iff, N.eqb_neq in Hneq.
    apply N.eqb_eq in Hh0. lia.
  - split; [intros t' [Hin _]%filter_In; auto|].
    intros i' [Hin Hneq]%filter_In.
    destruct (Hi _ Hin) as (t' & Hin' & Hp). exists t'. split; [|done].
    apply filter_In. split; [done|].
    match goal with
    | Hf : find_timeout _ _ = Some ?t0 |- _ =>
        apply List.find_some in Hf as [Hin0 Hh0];
        pose proof (Ht _ Hin0); pose proof (Ht _ Hin')
    end.
    unfold has_handle in Hneq.
    apply negb_true_iff, N.eqb_neq. apply negb_true_iff, N.eqb_neq in Hneq.
    apply N.eqb_eq in Hh0. lia.
Qed.

Lemma polls_known_tasks_In s :
  polls_known_tasks s ↔
  ∀ i, In i (intervals s) →
    ∃ v, In v (videoHistory (view s)) ∧ task_id v = Some (i_taskId i).
Proof.
  unfold polls_known_tasks. rewrite List.Forall_forall.
  by setoid_rewrite List.Exists_exists.
Qed.

Lemma polls_known_tasks_step e s s' :
  step e s = Some s' → polls_known_tasks s → polls_known_tasks s'.
Proof.
  rewrite !polls_known_tasks_In. intros H Hi.
  step_cases H; try done; intros i' Hin;
    repeat match goal with
    | Hx : In _ (List.filter _ _) |- _ => apply filter_In in Hx as [Hx _]
    | Hx : In _ (List.map _ _) |- _ =>
        apply in_map_iff in Hx as (? & <- & Hx)
    | Hx : _ = _ ∨ In _ _ |- _ => destruct Hx as [<-|Hx]
    end;
    try (eexists; split; [by left|done]);
    try (destruct (Hi _ Hin) as (v & Hv & Htid); exists v;
         split; [|by repeat case_match];
         first [ done | by right
               | unfold addIfAbsent; case_match; [done|by right] ]).
Qed.

Lemma polling_has_interval_step e s s' :
  step e s = Some s' → polling_has_interval s → polling_has_interval s'.
Proof.
  unfold polling_has_interval. intros H Hp.
  step_cases H; try done; try (intros _; discriminate); intros Hq;
    try (specialize (Hp Hq)); try done.
  destruct (intervals s); [done|discriminate].
Qed.

Lemma reachable_invariant (P : State → Prop) :
  P initial →
  (∀ e s s', step e s = Some s' → P s → P s') →
  ∀ s, reachable s → P s.
Proof.
  intros H0 Hstep s [es Hrun]. by apply (run_invariant P Hstep es initial).
Qed.

(** X18. In every state the component can reach, the busy flag of the
    text form and that of the lookup form are set exactly while one
    request of that form is in flight, so at most one text creation and
    one lookup are in flight at a time; the busy flag of the image form
    is set only while some image creation is in flight, and the requests
    and reads in flight have distinct ids. The image form gives no such
    bound: its flag is set only once the file has been read, and two
    submissions of a file made while it is read end with two image
    creations in flight. *)
Theorem one_request_per_form :
  (∀ s : State,
     reachable s →
     awaiting is_generate s = Nat.b2n (isGenerating (view s))
     ∧ awaiting is_lookup s = Nat.b2n (isLookingUp (view s))
     ∧ (awaiting is_generate s ≤ 1)%nat
     ∧ (awaiting is_lookup s ≤ 1)%nat
     ∧ (isGeneratingFromImage (view s) = true →
        (1 ≤ awaiting is_generateFromImage s)%nat)
     ∧ NoDup (List.map fst (inflight s)))
  ∧ (∃ s : State,
       reachable s
       ∧ isGeneratingFromImage (view s) = true
       ∧ awaiting is_generateFromImage s = 2%nat).
Proof.
  split.
  - intros s Hs.
    assert (ids_fresh s ∧ flags_match s) as [[Hnd _] (Hg & Hi & Hl)].
    { revert s Hs. apply reachable_invariant.
      - split; [split; constructor|]. vm_compute. repeat split; lia.
      - intros e s s' Hstep [Hf Hm]. split.
        + by eapply ids_fresh_step.
        + by eapply flags_match_step. }
    split; [done|]. split; [done|].
    split; [rewrite Hg; destruct (isGenerating (view s)); simpl; lia|].
    split; [rewrite Hl; destruct (isLookingUp (view s)); simpl; lia|].
    split; [|done].
    intros Hflag. rewrite Hflag in Hi. exact Hi.
  - exists sent_twice. split.
    + exists [ChooseUploadMethod ByFile;
              ChooseFile {| dataUrl := Some "data:image/png;base64,AAAA" |};
              ImageSubmit; ImageSubmit; FileRead 1; FileRead 2].
      vm_compute; reflexivity.
    + vm_compute. split; reflexivity.
Qed.

Lemma one_request_per_form_witness :
  awaiting is_generate sent_twice
  = Nat.b2n (isGenerating (view sent_twice))
  ∧ awaiting is_lookup sent_twice
    = Nat.b2n (isLookingUp (view sent_twice))
  ∧ (awaiting is_generate sent_twice ≤ 1)%nat
  ∧ (awaiting is_lookup sent_twice ≤ 1)%nat
  ∧ (1 ≤ awaiting is_generateFromImage sent_twice)%nat
  ∧ NoDup (List.map fst (inflight sent_twice)).
Proof.
  assert (reachable sent_twice) as Hr.
  { exists [ChooseUploadMethod ByFile;
            ChooseFile {| dataUrl := Some "data:image/png;base64,AAAA" |};
            ImageSubmit; ImageSubmit; FileRead 1; FileRead 2].
    vm_compute; reflexivity. }
  destruct (proj1 one_request_per_form sent_twice Hr)
    as (Hg & Hl & Hg1 & Hl1 & Hi & Hnd).
  split; [exact Hg|]. split; [exact Hl|]. split; [exact Hg1|].
  split; [exact Hl1|]. split; [|exact Hnd].
  apply Hi. vm_compute; reflexivity.
Defined.

(** X19. In every state the component can reach, every registered
    interval has its timeout in the timer table: the timeout that closes
    over it, with the handle that follows the interval's. No poll runs
    without its deadline pending. *)
Theorem every_poll_has_timeout (s : State) (h : N) :
  reachable s →
  registered h s = true →
  ∃ t, In t (timeouts s)
       ∧ t_pollInterval t = h ∧ t_handle t = N.succ h.
Proof.
  intros Hs Hreg.
  assert (timers_paired s) as Hp.
  { revert s Hs Hreg. intros s Hs _. revert s Hs.
    apply reachable_invariant; [split; constructor|].
    apply timers_paired_step. }
  apply timers_paired_In in Hp as [Ht Hi].
  unfold registered in Hreg.
  apply existsb_exists in Hreg as (i & Hin & Hh).
  unfold has_handle in Hh. apply N.eqb_eq in Hh.
  destruct (Hi _ Hin) as (t & Hint & Hpoll).
  exists t. split; [done|]. split; [congruence|].
  rewrite (Ht _ Hint). congruence.
Qed.

Lemma every_poll_has_timeout_witness :
  ∃ t, In t (timeouts awaiting_poll)
       ∧ t_pollInterval t = 2%N ∧ t_handle t = N.succ 2.
Proof.
  apply (every_poll_has_timeout awaiting_poll 2).
  - exists first_poll. vm_compute; reflexivity.
  - vm_compute; reflexivity.
Defined.

(** X20. In every state the component can reach, an interval that
    fires asks for the creations of a task whose job is in the
    history. *)
Theorem polls_ask_for_known_tasks (s s' : State) (h : N) :
  reachable s →
  step (IntervalFires h) s = Some s' →
  ∃ taskId v,
    requests s' = GetTaskCreations taskId :: requests s
    ∧ In v (videoHistory (view s))
    ∧ task_id v = Some taskId.
Proof.
  intros Hs Hstep.
  assert (polls_known_tasks s) as Hp.
  { revert s Hs Hstep. intros s Hs _. revert s Hs.
    apply reachable_invariant; [constructor|].
    apply polls_known_tasks_step. }
  rewrite polls_known_tasks_In in Hp.
  simpl in Hstep.
  destruct (find_interval h s) as [i|] eqn:Hf; [|done].
  destruct (i_due i <=? now s)%N; [|done]. injection Hstep as <-.
  unfold find_interval in Hf. apply List.find_some in Hf as [Hin _].
  destruct (Hp _ Hin) as (v & Hv & Htid).
  by exists (i_taskId i), v.
Qed.

Lemma polls_ask_for_known_tasks_witness :
  ∃ taskId v,
    requests awaiting_poll = GetTaskCreations taskId :: requests
      (with_now 5000 polling_first)
    ∧ In v (videoHistory (view (with_now 5000 polling_first)))
    ∧ task_id v = Some taskId.
Proof.
  apply (polls_ask_for_known_tasks (with_now 5000 polling_first)
           awaiting_poll 2).
  - exists (first_job ++ [Elapse 5000])%list. vm_compute; reflexivity.
  - vm_compute; reflexivity.
Defined.

(** X21. In every state the component can reach, the status shown is
    "processing" only while some interval is registered. *)
Theorem processing_has_interval (s : State) :
  reachable s →
  getCurrentStatus (view s) = "processing" →
  intervals s ≠ [].
Proof.
  intros Hs Hst.
  assert (polling_has_interval s) as Hp.
  { revert s Hs Hst. intros s Hs _. revert s Hs.
    apply reachable_invariant; [done|].
    apply polling_has_interval_step. }
  apply Hp. unfold getCurrentStatus in Hst.
  destruct (isPolling (view s)); [done|].
  repeat case_match; discriminate.
Qed.

Lemma processing_has_interval_witness : intervals polling_first ≠ [].
Proof.
  apply (processing_has_interval polling_first).
  - exists first_job. vm_compute; reflexivity.
  - vm_compute; reflexivity.
Defined.

End Invariants.
